(** * Smart Study Area climate dashboard: ingestion, buffering, windowed queries

    A shallow embedding of [live-dashboard.py].  The program keeps a bounded
    deque of timestamped temperature/humidity readings that is fed either by
    the MQTT callback [on_message] or by the [simulate] loop, and a polling
    callback [update] that snapshots the deque, filters it to a time window
    and derives gauges, line charts, a correlation matrix and a summary.

    Modelling choices, all read off the source:
    - a Python [float] is an IEEE-754 binary64 value: Rocq's primitive
      [float], with [PrimFloat.ltb]/[PrimFloat.leb] for [<] and [<=];
    - a [datetime] is a count of microseconds on [Z] ([datetime.utcnow()] is
      an input of the operation that reads the clock, a [timedelta] of [m]
      minutes is [m * 60_000_000]); the finite range of [datetime] is not
      modelled;
    - Python objects that are shared and mutated live in a heap
      ([gmap loc obj]): the module-level deque [buffer] at a fixed location,
      the list made by [list(buffer)] and the data frame handed to the
      caller at freshly allocated ones;
    - exceptions are the [Raise] branch of [result]; [try]/[except Exception]
      is [try_except];
    - [with lock:] bodies are atomic steps of a sequential interleaving; the
      lock itself is not represented;
    - builtins and third-party calls whose code is not part of the program
      ([bytes.decode], [float(str)], [round], the plotly constructors, the
      pandas reductions [min], [max] and [mean] of a column, string
      formatting) are parameters of the sections that use them;
    - line 236 of the source ([FINAL fixed heatmap]) is read as the comment
      it is meant to be. *)

From Stdlib Require Import ZArith Floats Uint63 Lia Ascii.
From stdpp Require Import base option list sorting gmap strings.

Set Warnings "-inexact-float".

(** ** Values, exceptions and results *)

(** The dict [{"ts": ..., "temperature": ..., "humidity": ...}] built by
    [safe_append]. *)
Record Sample := mkSample {
  ts : Z;
  temperature : float;
  humidity : float
}.

Inductive exn :=
  | ValueError (msg : string)
  | KeyError (key : string)
  | IndexError (msg : string)
  | UnicodeDecodeError (msg : string)
  | NameError (name : string)
  | TypeError (msg : string)
  | OtherError (msg : string).

(** [str(e)] *)
Definition exn_str (e : exn) : string :=
  match e with
  | ValueError m | IndexError m | UnicodeDecodeError m | TypeError m
  | OtherError m => m
  | KeyError k => "'" +:+ k +:+ "'"
  | NameError n => "name '" +:+ n +:+ "' is not defined"
  end.

Inductive result (A : Type) :=
  | Ok (a : A)
  | Raise (e : exn).
Arguments Ok {A} a.
Arguments Raise {A} e.

#[global] Instance result_ret : MRet result := λ A a, Ok a.
#[global] Instance result_bind : MBind result := λ A B k r,
  match r with
  | Ok a => k a
  | Raise e => Raise e
  end.

Definition is_ok {A} (r : result A) : bool :=
  match r with Ok _ => true | Raise _ => false end.

(** ** Data frames

    Only the frames the program builds occur: every row carries the three
    values of a sample, and the column labels are kept because [df["ts"]]
    raises [KeyError] on a frame without that column ([pd.DataFrame([])] has
    none). *)
Record DataFrame := mkFrame {
  df_columns : list string;
  df_rows : list Sample
}.

Definition sample_columns : list string := ["ts"; "temperature"; "humidity"].

(** [pd.DataFrame(rows)] for a list of sample dicts. *)
Definition DataFrame_of_rows (rows : list Sample) : DataFrame :=
  mkFrame (match rows with [] => [] | _ => sample_columns end) rows.

(** [pd.DataFrame(columns=["ts", "temperature", "humidity"])] *)
Definition DataFrame_empty : DataFrame := mkFrame sample_columns [].

(** [df[c]]: the values of column [c], read from the rows by [proj], or
    [KeyError] when the frame has no such column. *)
Definition getitem {A} (proj : Sample → A) (df : DataFrame) (c : string)
  : result (list A) :=
  if decide (c ∈ df_columns df) then Ok (proj <$> df_rows df)
  else Raise (KeyError c).

(** [df.empty] *)
Definition df_is_empty (df : DataFrame) : bool :=
  match df_rows df, df_columns df with
  | [], _ | _, [] => true
  | _, _ => false
  end.

(** ** The heap and the state monad *)

Definition loc := nat.

Inductive obj :=
  | ODeque (maxlen : nat) (items : list Sample)
  | OList (items : list Sample)
  | OFrame (df : DataFrame).

Record World := mkWorld {
  heap : gmap loc obj;
  console : list string
}.

Definition M (A : Type) : Type := World → result A * World.

#[global] Instance M_ret : MRet M := λ A a w, (Ok a, w).
#[global] Instance M_bind : MBind M := λ A B k m w,
  match m w with
  | (Ok a, w') => k a w'
  | (Raise e, w') => (Raise e, w')
  end.

Definition raise {A} (e : exn) : M A := λ w, (Raise e, w).
Definition lift {A} (r : result A) : M A := λ w, (r, w).

(** [try: body / except Exception as e: handler e] *)
Definition try_except {A} (body : M A) (handler : exn → M A) : M A := λ w,
  match body w with
  | (Ok a, w') => (Ok a, w')
  | (Raise e, w') => handler e w'
  end.

(** [print(s)] *)
Definition print (s : string) : M unit := λ w,
  (Ok tt, mkWorld (heap w) (console w ++ [s])).

(** Allocation of a new object; the address of the global [buffer] is never
    handed out again. *)
Definition buffer_loc : loc := 0.

Definition alloc (o : obj) : M loc := λ w,
  let l := fresh ({[buffer_loc]} ∪ dom (heap w)) in
  (Ok l, mkWorld (<[l := o]> (heap w)) (console w)).

(** ** Configuration and the sample store *)

Definition UPDATE_INTERVAL_MS : Z := 2000.
Definition MAX_POINTS : nat := 1500.

(** [deque.append] on a deque object with a [maxlen]: the item is added on
    the right and, when the deque is now longer than [maxlen], one item is
    popped from the left. *)
Definition deque_append (maxlen : nat) (d : list Sample) (x : Sample)
  : list Sample :=
  let d' := d ++ [x] in
  if decide (maxlen < length d') then tail d' else d'.

(** The module's start: [buffer = deque(maxlen=MAX_POINTS)]. *)
Definition init_world : World :=
  mkWorld {[ buffer_loc := ODeque MAX_POINTS [] ]} [].

(** The items of the global deque, [list(buffer)] as a value. *)
Definition buffer_of (w : World) : list Sample :=
  match heap w !! buffer_loc with
  | Some (ODeque _ items) => items
  | _ => []
  end.

(** [len(buffer)] *)
Definition size (w : World) : nat := length (buffer_of w).

(** [safe_append(t, h)]; [now] is what [datetime.utcnow()] returns and
    [float(t)], [float(h)] are the identity on floats. *)
Definition safe_append (now : Z) (t h : float) : M unit := λ w,
  match heap w !! buffer_loc with
  | Some (ODeque n items) =>
      (Ok tt,
       mkWorld (<[buffer_loc := ODeque n (deque_append n items (mkSample now t h))]> (heap w))
               (console w))
  | _ => (Raise (NameError "buffer"), w)
  end.

(** ** Ingestion *)

(** [s.split(",")] *)
Fixpoint str_split (sep : Ascii.ascii) (s : string) : list string :=
  match s with
  | EmptyString => [EmptyString]
  | String c rest =>
      let fields := str_split sep rest in
      if Ascii.eqb c sep then EmptyString :: fields
      else match fields with
           | f :: fs => String c f :: fs
           | [] => [String c EmptyString]
           end
  end.

(** [-10 < t < 60 and 0 <= h <= 100] *)
Definition in_range (t h : float) : bool :=
  PrimFloat.ltb (-10) t && PrimFloat.ltb t 60
  && PrimFloat.leb 0 h && PrimFloat.leb h 100.

(** What the guarded call of [on_message] does with a parsed reading. *)
Definition validate_and_append (now : Z) (t h : float) : M unit :=
  if in_range t h then safe_append now t h else mret tt.

Section Ingestion.
(** [bytes.decode()]: the text (kept as its UTF-8 bytes) or
    [UnicodeDecodeError]. *)
Variable py_decode : string → result string.
(** [float(s)] on a string: the value or [ValueError]. *)
Variable py_float : string → result float.

(** [map(float, fields)] consumed by a two-target unpacking: the fields
    are converted from the left, and a count other than two raises
    [ValueError]. *)
Definition unpack_two_floats (fields : list string) : result (float * float) :=
  vals ← mapM py_float fields;
  match vals with
  | [t; h] => Ok (t, h)
  | [] => Raise (ValueError "not enough values to unpack (expected 2, got 0)")
  | [_] => Raise (ValueError "not enough values to unpack (expected 2, got 1)")
  | _ => Raise (ValueError "too many values to unpack (expected 2)")
  end.

(** [t, h = map(float, msg.payload.decode().split(",")[:2])] *)
Definition parse_payload (payload : string) : result (float * float) :=
  text ← py_decode payload;
  unpack_two_floats (take 2 (str_split ","%char text)).

Definition on_message (now : Z) (payload : string) : M unit :=
  try_except
    ('(t, h) ← lift (parse_payload payload);
     validate_and_append now t h)
    (λ e, print ("⚠️ Parse error: " +:+ exn_str e)).
End Ingestion.

(** ** The simulation loop *)

(** One iteration of [simulate]'s loop body; [u_t] and [u_h] are the two
    values drawn by [random.uniform(-0.5, 0.5)]. *)
Definition simulated_reading (u_t u_h : float) : float * float :=
  (29 + u_t, 80 + u_h)%float.

Definition simulate_tick (now : Z) (u_t u_h : float) : M unit :=
  let '(t, h) := simulated_reading u_t u_h in safe_append now t h.

(** [random.uniform(a, b)] returns [N] with [a <= N <= b]. *)
Definition noise_ok (u : float) : bool :=
  PrimFloat.leb (-0.5) u && PrimFloat.leb u 0.5.

(** [simulate()]: the loop runs once per draw until [stop_evt] is set; the
    list holds what the clock and the generator return in each iteration. *)
Fixpoint simulate (ticks : list (Z * float * float)) : M unit :=
  match ticks with
  | [] => mret tt
  | (now, u_t, u_h) :: rest => simulate_tick now u_t u_h ;; simulate rest
  end.

(** ** Snapshot and window query *)

(** [with lock: rows = list(buffer)]: a new list object holding the deque's
    items. *)
Definition snapshot : M loc := λ w,
  match heap w !! buffer_loc with
  | Some (ODeque _ items) => alloc (OList items) w
  | _ => (Raise (NameError "buffer"), w)
  end.

Definition load_list (l : loc) : M (list Sample) := λ w,
  match heap w !! l with
  | Some (OList items) => (Ok items, w)
  | _ => (Raise (TypeError "not a list"), w)
  end.

Definition load_frame (l : loc) : M DataFrame := λ w,
  match heap w !! l with
  | Some (OFrame df) => (Ok df, w)
  | _ => (Raise (TypeError "not a DataFrame"), w)
  end.

(** [df["ts"]] *)
Definition getitem_ts (df : DataFrame) : result (list Z) :=
  getitem ts df "ts".

(** [df["ts"] = vals] on a frame that has as many rows as [vals]. *)
Definition setitem_ts (df : DataFrame) (vals : list Z) : DataFrame :=
  mkFrame
    (if decide ("ts" ∈ df_columns df) then df_columns df
     else df_columns df ++ ["ts"])
    (zip_with (λ s v, mkSample v (temperature s) (humidity s)) (df_rows df) vals).

(** [pd.to_datetime] of a column of [datetime] objects keeps the instants. *)
Definition to_datetime (col : list Z) : list Z := col.

(** [timedelta(minutes=mins)], in microseconds. *)
Definition timedelta_minutes (mins : Z) : Z := (mins * 60000000)%Z.

(** [df[mask]] for a boolean mask aligned with the rows. *)
Definition boolean_index (df : DataFrame) (mask : list bool) : DataFrame :=
  mkFrame (df_columns df) (fst <$> filter (λ p, snd p = true) (zip (df_rows df) mask)).

Definition ts_le (a b : Sample) : Prop := (ts a ≤ ts b)%Z.

#[global] Instance ts_le_dec : RelDecision ts_le.
Proof. intros a b. unfold ts_le. apply _. Defined.

(** [df.sort_values("ts")]: the rows in ascending order of [ts] (the order
    of rows with equal [ts] is the library's). *)
Definition sort_values_ts (df : DataFrame) : result DataFrame :=
  if decide ("ts" ∈ df_columns df)
  then Ok (mkFrame (df_columns df) (merge_sort ts_le (df_rows df)))
  else Raise (KeyError "ts").

(** [df_buf(mins)]; [now] is what [datetime.utcnow()] returns on line 73. *)
Definition df_buf (now : Z) (mins : Z) : M loc :=
  r ← snapshot;
  rows ← load_list r;
  match rows with
  | [] => alloc (OFrame DataFrame_empty)
  | _ =>
      let df := DataFrame_of_rows rows in
      col ← lift (getitem_ts df);
      let df := setitem_ts df (to_datetime col) in
      df ← (if decide (0 < mins)%Z
            then col ← lift (getitem_ts df);
                 let cutoff := (now - timedelta_minutes mins)%Z in
                 mret (boolean_index df ((λ v, bool_decide (cutoff < v)%Z) <$> col))
            else mret df);
      sorted ← lift (sort_values_ts df);
      alloc (OFrame sorted)
  end.

(** ** Helpers of the analytics *)

(** [safe_range(lo, hi, expand)] on floats ([pd.isna] is the NaN test and
    [float(lo)] the identity). *)
Definition safe_range (lo hi expand : float) : float * float :=
  let body : result (float * float) :=
    if PrimFloat.is_nan lo || PrimFloat.is_nan hi then Ok (0, 1)%float
    else if PrimFloat.leb hi lo then Ok (lo - expand, lo + expand)%float
    else Ok (lo, hi) in
  match body with
  | Ok r => r
  | Raise _ => (0, 1)%float
  end.

(** [s.dropna()] *)
Definition dropna (col : list float) : list float :=
  filter (λ x, PrimFloat.is_nan x = false) col.

(** [s.iloc[-1]] *)
Definition iloc_last (col : list float) : result float :=
  match last col with
  | Some x => Ok x
  | None => Raise (IndexError "single positional indexer is out-of-bounds")
  end.

(** *** Pearson correlation, as [DataFrame.corr()] computes it

    One pass of Welford's update over the rows in which both values are
    finite; the coefficient is [covxy / sqrt(ssqdm_x * ssqdm_y)] and NaN when
    that divisor is zero or no row was used. *)
Record welford := mkWelford {
  nobs : Z;
  meanx : float;
  meany : float;
  ssqdm_x : float;
  ssqdm_y : float;
  covxy : float
}.

Definition float_of_Z (n : Z) : float := PrimFloat.of_uint63 (Uint63.of_Z n).

Definition welford_step (a : welford) (v : float * float) : welford :=
  let '(vx, vy) := v in
  if PrimFloat.is_finite vx && PrimFloat.is_finite vy then
    let n := (nobs a + 1)%Z in
    let dx := (vx - meanx a)%float in
    let dy := (vy - meany a)%float in
    let mx := (meanx a + 1 / float_of_Z n * dx)%float in
    let my := (meany a + 1 / float_of_Z n * dy)%float in
    mkWelford n mx my
      (ssqdm_x a + (vx - mx) * dx)%float
      (ssqdm_y a + (vy - my) * dy)%float
      (covxy a + (vx - mx) * dy)%float
  else a.

Definition pearson (xs ys : list float) : float :=
  let a := foldl welford_step (mkWelford 0 0 0 0 0 0) (zip xs ys) in
  if decide (nobs a < 1)%Z then nan
  else
    let divisor := PrimFloat.sqrt (ssqdm_x a * ssqdm_y a) in
    if PrimFloat.eqb divisor 0 then nan else (covxy a / divisor)%float.

(** [df[["temperature", "humidity"]].corr()], row by row; the entry below
    the diagonal is computed and mirrored above it. *)
Definition corr (df : DataFrame) : result (list (list float)) :=
  t ← getitem temperature df "temperature";
  h ← getitem humidity df "humidity";
  Ok [[pearson t t; pearson h t]; [pearson h t; pearson h h]].

(** [c.shape] *)
Definition shape (c : list (list float)) : nat * nat :=
  (length c, match c with [] => 0 | row :: _ => length row end).

Definition identity_matrix : list (list float) :=
  [[1; 0]; [0; 1]]%float.

(** Lines 232-234 of [update]: the matrix handed to the heat map. *)
Definition correlation (df : DataFrame) : result (list (list float)) :=
  c ← corr df;
  Ok (if decide (shape c ≠ (2, 2)) then identity_matrix else c).

(** ** The polling callback *)

Inductive metric := Temperature | Humidity.

Definition metric_name (m : metric) : string :=
  match m with Temperature => "temperature" | Humidity => "humidity" end.

Definition metric_value (m : metric) : Sample → float :=
  match m with Temperature => temperature | Humidity => humidity end.

(** Truth value of a float: false exactly for zero. *)
Definition float_truthy (x : float) : bool := negb (PrimFloat.eqb x 0).

(** [max(a, b)] on floats: [b] replaces [a] only when [b > a]. *)
Definition py_max (a b : float) : float := if PrimFloat.ltb a b then b else a.

Definition is_nil {A} (l : list A) : bool :=
  match l with [] => true | _ => false end.

Section Dashboard.
Variable Figure : Type.
(** [go.Figure().update_layout(template="plotly_white", height=h)] *)
Variable blank_figure : Z → Figure.
(** the [(No data yet)] figure of [line_fig] *)
Variable no_data_figure : string → Figure.
(** The plotly figures built from an [Indicator], a [Scatter] and a
    [Heatmap] trace; the library may reject its arguments. *)
Variable indicator_figure :
  float → string → string → float * float → list float → result Figure.
Variable scatter_figure :
  list Z → list float → string → string → string → float → float * float →
  result Figure.
Variable heatmap_figure : list (list float) → result Figure.
(** [round(x, ndigits)] *)
Variable py_round : float → Z → float.
(** [s.min()], [s.max()] and [s.mean()] of a column: pandas' reductions
    over the values that are not NaN (which of several equal values, such as
    the two zeros, is returned, and the order of summation, are the
    library's) *)
Variable series_min : list float → float.
Variable series_max : list float → float.
Variable series_mean : list float → float.
(** the f-string of the summary: sample count, then mean, min and max of
    each metric *)
Variable format_stats :
  nat → float → float → float → float → float → float → string.
(** text written by [traceback.print_exc()] *)
Variable format_exc : exn → string.

Definition Output : Type := Figure * Figure * Figure * Figure * string.

Definition gauge (val lo hi : float) (title color : string) : result Figure :=
  let '(lo, hi) := safe_range lo hi 0.1 in
  let ticks :=
    (λ i, py_round (lo + float_of_Z i * (hi - lo) / 5)%float 2)
      <$> [0; 1; 2; 3; 4; 5]%Z in
  indicator_figure (if PrimFloat.is_nan val then 0%float else val)
                   title color (lo, hi) ticks.

Definition line_fig (df : DataFrame) (y : metric) (title clr : string)
    (step : float) (y_label : string) : result Figure :=
  if df_is_empty df || negb (bool_decide (metric_name y ∈ df_columns df))
  then Ok (no_data_figure title)
  else
    col ← getitem (metric_value y) df (metric_name y);
    if is_nil (dropna col) then Ok (no_data_figure title)
    else
      let pad := if float_truthy step then step else 0.01%float in
      let '(lo, hi) :=
        safe_range (series_min col - pad) (series_max col + pad) 0.1 in
      let y_dtick :=
        if float_truthy step && PrimFloat.ltb 0 step then step
        else py_max ((hi - lo) / 8) 0.01 in
      xs ← getitem_ts df;
      ys ← getitem (metric_value y) df (metric_name y);
      scatter_figure xs ys title clr y_label y_dtick (lo, hi).

(** The [try] block of [update]. *)
Definition update_body (now : Z) : M Output :=
  r ← df_buf now 5;
  df ← load_frame r;
  waiting ← lift (
    if df_is_empty df then Ok true
    else
      tcol ← getitem temperature df "temperature";
      if is_nil (dropna tcol) then Ok true
      else
        hcol ← getitem humidity df "humidity";
        Ok (is_nil (dropna hcol)));
  if (waiting : bool) then
    let empty := blank_figure 300 in
    mret (empty, empty, empty, empty, "Waiting for valid data...")
  else
    tcol ← lift (getitem temperature df "temperature");
    hcol ← lift (getitem humidity df "humidity");
    t ← lift (iloc_last tcol);
    h ← lift (iloc_last hcol);
    tg ← lift (gauge t (series_min tcol - 0.1) (series_max tcol + 0.1)
                 "Temperature (°C)" "#FF8C00");
    hg ← lift (gauge h (series_min hcol - 0.05) (series_max hcol + 0.05)
                 "Humidity (%)" "#00BFFF");
    tl ← lift (line_fig df Temperature "Temperature Over Time" "#007AFF"
                 0.02 "Temperature (°C)");
    hl ← lift (line_fig df Humidity "Humidity Over Time" "#00BFFF"
                 0.05 "Humidity (%)");
    c ← lift (correlation df);
    cf ← lift (heatmap_figure c);
    let stats :=
      format_stats (length (df_rows df))
        (series_mean tcol) (series_min tcol) (series_max tcol)
        (series_mean hcol) (series_min hcol) (series_max hcol) in
    mret (tg, hg, tl, hl, stats).

(** The placeholder returned by the [except] branch. *)
Definition error_output (e : exn) : Output :=
  let empty := blank_figure 300 in
  (empty, empty, empty, empty, "Error generating charts — " +:+ exn_str e).

(** The [except Exception as e] branch of [update]. *)
Definition update_handler (e : exn) : M Output :=
  print (" Callback error in update(): " +:+ exn_str e) ;;
  print (format_exc e) ;;
  mret (error_output e).

(** [try: body / except Exception as e: ...], the boundary of the polling
    callback. *)
Definition polling_boundary (body : M Output) : M Output :=
  try_except body update_handler.

Definition update (now : Z) : M Output :=
  polling_boundary (update_body now).
(** What the [try] block computes from the frame of the query, as a pure
    function of that frame. *)
Definition render (df : DataFrame) : result Output :=
  waiting ← (if df_is_empty df then Ok true
             else
               tcol ← getitem temperature df "temperature";
               if is_nil (dropna tcol) then Ok true
               else
                 hcol ← getitem humidity df "humidity";
                 Ok (is_nil (dropna hcol)));
  if (waiting : bool) then
    let empty := blank_figure 300 in
    Ok (empty, empty, empty, empty, "Waiting for valid data...")
  else
    tcol ← getitem temperature df "temperature";
    hcol ← getitem humidity df "humidity";
    t ← iloc_last tcol;
    h ← iloc_last hcol;
    tg ← gauge t (series_min tcol - 0.1) (series_max tcol + 0.1)
           "Temperature (°C)" "#FF8C00";
    hg ← gauge h (series_min hcol - 0.05) (series_max hcol + 0.05)
           "Humidity (%)" "#00BFFF";
    tl ← line_fig df Temperature "Temperature Over Time" "#007AFF"
           0.02 "Temperature (°C)";
    hl ← line_fig df Humidity "Humidity Over Time" "#00BFFF"
           0.05 "Humidity (%)";
    c ← correlation df;
    cf ← heatmap_figure c;
    Ok (tg, hg, tl, hl,
        format_stats (length (df_rows df))
          (series_mean tcol) (series_min tcol) (series_max tcol)
          (series_mean hcol) (series_min hcol) (series_max hcol)).
End Dashboard.

(** ** Runs of the system *)

(** What can happen to the store: the feed delivers a message, the
    simulation loop makes an iteration, or a consumer queries a window. *)
Inductive event :=
  | EvMessage (now : Z) (payload : string)
  | EvSimTick (now : Z) (u_t u_h : float)
  | EvQuery (now : Z) (mins : Z).

Section Runs.
Variable py_decode : string → result string.
Variable py_float : string → result float.

Definition step (ev : event) (w : World) : World :=
  match ev with
  | EvMessage now payload => snd (on_message py_decode py_float now payload w)
  | EvSimTick now u_t u_h => snd (simulate_tick now u_t u_h w)
  | EvQuery now mins => snd (df_buf now mins w)
  end.

Definition run (evs : list event) (w : World) : World :=
  foldl (λ w ev, step ev w) w evs.
End Runs.

(** The draws of every simulated iteration respect [random.uniform]'s
    bounds. *)
Definition event_ok (ev : event) : bool :=
  match ev with
  | EvSimTick _ u_t u_h => noise_ok u_t && noise_ok u_h
  | _ => true
  end.

(** ** Reference builtins on ASCII input

    Executable instances of the two builtins of the ingestion path, for
    running the model on concrete payloads: [ascii_decode] is
    [bytes.decode] on payloads made of ASCII bytes, and [float_of_decimal]
    is [float(str)] on plain decimal literals (sign, digits, optional
    fraction) short enough for both the digits and the power of ten to be
    exact in binary64, so that the single division rounds correctly. *)
Definition ascii_decode (payload : string) : result string :=
  if forallb (λ c, Nat.ltb (nat_of_ascii c) 128) (String.list_ascii_of_string payload)
  then Ok payload
  else Raise (UnicodeDecodeError "'utf-8' codec can't decode byte").

Definition digit_of (c : ascii) : option Z :=
  let n := Z.of_nat (nat_of_ascii c) in
  if (48 <=? n)%Z && (n <=? 57)%Z then Some (n - 48)%Z else None.

Fixpoint digits_to_Z (s : string) (acc : Z) : option Z :=
  match s with
  | EmptyString => Some acc
  | String c rest => d ← digit_of c; digits_to_Z rest (10 * acc + d)%Z
  end.

Definition float_of_decimal (s : string) : result float :=
  let bad := Raise (ValueError ("could not convert string to float: '" +:+ s +:+ "'")) in
  let '(neg, body) :=
    match s with
    | String "-" r => (true, r)
    | String "+" r => (false, r)
    | _ => (false, s)
    end in
  let signed (x : float) := if (neg : bool) then (- x)%float else x in
  match str_split "." body with
  | [i] =>
      match i, digits_to_Z i 0 with
      | String _ _, Some n => Ok (signed (float_of_Z n))
      | _, _ => bad
      end
  | [i; f] =>
      match (i +:+ f)%string, digits_to_Z (i +:+ f) 0 with
      | String _ _, Some n =>
          Ok (signed (float_of_Z n / float_of_Z (10 ^ Z.of_nat (String.length f)))%float)
      | _, _ => bad
      end
  | _ => bad
  end.

(** ** Vocabulary of the statements *)

(** A run of [safe_append] calls, one per element of [inputs]. *)
Definition appends (inputs : list (Z * float * float)) (w : World) : World :=
  foldl (λ w '(now, t, h), snd (safe_append now t h w)) w inputs.

Definition sample_of (i : Z * float * float) : Sample :=
  let '(now, t, h) := i in mkSample now t h.

(** The payload decodes, its first two comma-separated fields convert to
    the floats [t] and [h], and these pass the range check. *)
Definition valid_reading (py_decode : string → result string)
    (py_float : string → result float) (payload : string) (t h : float)
  : Prop :=
  ∃ text f1 f2 rest,
    py_decode payload = Ok text ∧ str_split "," text = f1 :: f2 :: rest ∧
    py_float f1 = Ok t ∧ py_float f2 = Ok h ∧
    PrimFloat.ltb (-10) t = true ∧ PrimFloat.ltb t 60 = true ∧
    PrimFloat.leb 0 h = true ∧ PrimFloat.leb h 100 = true.

Definition sample_in_range (s : Sample) : Prop :=
  in_range (temperature s) (humidity s) = true.

(** The rows a window query is expected to hold before sorting. *)
Definition window_filter (now mins : Z) (items : list Sample) : list Sample :=
  if decide (0 < mins)%Z
  then filter (λ s, (now - timedelta_minutes mins < ts s)%Z) items
  else items.

(** The frame a window query is expected to return. *)
Definition window_frame (now mins : Z) (items : list Sample) : DataFrame :=
  match items with
  | [] => DataFrame_empty
  | _ => mkFrame sample_columns (merge_sort ts_le (window_filter now mins items))
  end.

(** The address [alloc] picks in a heap. *)
Definition fresh_loc (h : gmap loc obj) : loc :=
  fresh ({[buffer_loc]} ∪ dom h).

(** The deque is in place with its configured bound and holds accepted
    readings only. *)
Definition store_inv (w : World) : Prop :=
  ∃ items, heap w !! buffer_loc = Some (ODeque MAX_POINTS items)
           ∧ Forall sample_in_range items.

(** The readings a list of loop iterations appends. *)
Definition simulated_inputs (ticks : list (Z * float * float))
  : list (Z * float * float) :=
  (λ '(now, u_t, u_h), (now, 29 + u_t, 80 + u_h)%float) <$> ticks.

(** Strictly increasing timestamps. *)
Definition ts_lt (a b : Sample) : Prop := (ts a < ts b)%Z.

(** Spec-level floats that are a zero or a finite number. *)
Definition sf_finite (x : spec_float) : Prop :=
  match x with
  | S754_zero _ | S754_finite _ _ _ => True
  | _ => False
  end.

(** A plotting backend that accepts everything, to run the callback. *)
Definition null_indicator
  : float → string → string → float * float → list float → result unit :=
  λ _ _ _ _ _, Ok tt.
Definition null_scatter
  : list Z → list float → string → string → string → float → float * float →
    result unit :=
  λ _ _ _ _ _ _ _, Ok tt.
Definition null_heatmap : list (list float) → result unit := λ _, Ok tt.
Definition null_stats
  : nat → float → float → float → float → float → float → string :=
  λ _ _ _ _ _ _ _, "".


(** * Facts about binary64 arithmetic

    What the proofs need of IEEE-754 addition and comparison, derived from
    the specification of the primitive operations ([SpecFloat]). *)
Module Binary64.
Local Open Scope Z_scope.

Definition half_pos : spec_float := S754_finite false 4503599627370496 (-53).
Definition half_neg : spec_float := S754_finite true 4503599627370496 (-53).

Lemma digits2_pos_size p : digits2_pos p = Pos.size p.
Proof. induction p; simpl; congruence. Qed.

Lemma digits2_pos_unique (p : positive) (k : Z) :
  2 ^ (k - 1) <= Z.pos p < 2 ^ k → Z.pos (digits2_pos p) = k.
Proof.
  intros [Hlo Hhi]. rewrite digits2_pos_size.
  pose proof (Pos.size_gt p) as Hgt. pose proof (Pos.size_le p) as Hle.
  apply Pos2Z.pos_lt_pos in Hgt. apply Pos2Z.pos_le_pos in Hle.
  rewrite Pos2Z.inj_pow in Hgt, Hle.
  change (Z.pos p~0) with (2 * Z.pos p) in Hle.
  set (s := Z.pos (Pos.size p)) in *.
  assert (0 < s) by (subst s; lia).
  assert (0 < k).
  { destruct (Z.lt_trichotomy k 0) as [Hk|[Hk|Hk]]; [|subst k; simpl in Hhi; lia|done].
    rewrite Z.pow_neg_r in Hhi by done. lia. }
  assert (k - 1 < s).
  { apply (Z.pow_lt_mono_r_iff 2); lia. }
  assert (s < k + 1).
  { apply (Z.pow_lt_mono_r_iff 2); [lia|lia|].
    replace (k + 1) with (Z.succ k) by lia. rewrite Z.pow_succ_r by lia. lia. }
  lia.
Qed.

Lemma shr_1_m mrs : 0 <= shr_m mrs → shr_m (shr_1 mrs) = shr_m mrs / 2.
Proof.
  destruct mrs as [m r s]. simpl. intros Hm.
  destruct m as [|[p|p|]|p]; cbn [shr_m]; try lia; try done.
  - apply Z.div_unique with 1; lia.
  - apply Z.div_unique with 0; lia.
Qed.

Lemma pow2_xO n : 2 ^ Z.pos n~0 = 2 ^ Z.pos n * 2 ^ Z.pos n.
Proof. rewrite <- Z.pow_add_r by lia. f_equal. lia. Qed.

Lemma pow2_xI n : 2 ^ Z.pos n~1 = 2 * (2 ^ Z.pos n * 2 ^ Z.pos n).
Proof.
  rewrite <- Z.pow_add_r, <- Z.pow_succ_r by lia. f_equal. lia.
Qed.

Lemma iter_pos_shr_m n : ∀ mrs,
  0 <= shr_m mrs →
  shr_m (SpecFloat.iter_pos shr_1 n mrs) = shr_m mrs / 2 ^ Z.pos n.
Proof.
  induction n as [n IH|n IH|]; intros mrs Hm; simpl.
  - assert (H1 : 0 <= shr_m (shr_1 mrs)).
    { rewrite shr_1_m by done. apply Z.div_pos; lia. }
    assert (H2 : 0 <= shr_m (SpecFloat.iter_pos shr_1 n (shr_1 mrs))).
    { rewrite IH by done. apply Z.div_pos; lia. }
    rewrite IH, IH, shr_1_m by done.
    rewrite !Z.div_div by lia. by rewrite pow2_xI.
  - assert (H2 : 0 <= shr_m (SpecFloat.iter_pos shr_1 n mrs)).
    { rewrite IH by done. apply Z.div_pos; lia. }
    rewrite IH, IH by done.
    rewrite !Z.div_div by lia. by rewrite pow2_xO.
  - rewrite shr_1_m by done. done.
Qed.

Lemma fexp_normal e : -1021 <= e → fexp prec emax e = e - 53.
Proof. intros He. unfold fexp, emin, prec, emax. lia. Qed.

Lemma round_nearest_even_bounds m l :
  m <= round_nearest_even m l <= m + 1.
Proof.
  destruct l as [|[]]; simpl; try lia. destruct (Z.even m); lia.
Qed.

Lemma shr_1_exact k :
  0 <= k →
  shr_1 (Build_shr_record (2 * k) false false) = Build_shr_record k false false.
Proof. intros Hk. by destruct k as [|p|p]; [| |lia]. Qed.

(** Shifting out [n] zero bits loses nothing. *)
Lemma iter_pos_shr_exact n : ∀ k,
  0 <= k →
  SpecFloat.iter_pos shr_1 n (Build_shr_record (k * 2 ^ Z.pos n) false false)
  = Build_shr_record k false false.
Proof.
  induction n as [n IH|n IH|]; intros k Hk; cbn [SpecFloat.iter_pos].
  - rewrite pow2_xI.
    replace (k * (2 * (2 ^ Z.pos n * 2 ^ Z.pos n)))
      with (2 * (k * 2 ^ Z.pos n * 2 ^ Z.pos n)) by lia.
    assert (0 < 2 ^ Z.pos n) by (apply Z.pow_pos_nonneg; lia).
    rewrite shr_1_exact by nia. rewrite IH by nia. by rewrite IH.
  - rewrite pow2_xO.
    replace (k * (2 ^ Z.pos n * 2 ^ Z.pos n))
      with (k * 2 ^ Z.pos n * 2 ^ Z.pos n) by lia.
    assert (0 < 2 ^ Z.pos n) by (apply Z.pow_pos_nonneg; lia).
    rewrite IH by nia. by rewrite IH.
  - change (2 ^ 1) with 2. replace (k * 2) with (2 * k) by lia.
    by apply shr_1_exact.
Qed.

(** Rounding a mantissa that has [d] bits too many: the result keeps the
    sign, has exponent [e + d] and its mantissa is the truncated one or the
    next; it is the truncated one when the [d] bits are zero. *)
Lemma binary_round_aux_shift sx (pM : positive) (e : Z) (d : positive) :
  -1074 <= e + Z.pos d <= 971 →
  2 ^ (52 + Z.pos d) <= Z.pos pM < 2 ^ (53 + Z.pos d) →
  Z.pos pM / 2 ^ Z.pos d + 1 < 2 ^ 53 →
  ∃ m, binary_round_aux prec emax sx (Z.pos pM) e loc_Exact
         = S754_finite sx m (e + Z.pos d)
       ∧ Z.pos pM / 2 ^ Z.pos d <= Z.pos m <= Z.pos pM / 2 ^ Z.pos d + 1
       ∧ (Z.pos pM = Z.pos pM / 2 ^ Z.pos d * 2 ^ Z.pos d →
          Z.pos m = Z.pos pM / 2 ^ Z.pos d).
Proof.
  intros He [Hlo Hhi] Hq.
  assert (Hdig : Z.pos (digits2_pos pM) = 53 + Z.pos d).
  { apply digits2_pos_unique. split; [|done].
    by replace (53 + Z.pos d - 1) with (52 + Z.pos d) by lia. }
  unfold binary_round_aux, shr_fexp. cbn [Zdigits2]. rewrite Hdig.
  rewrite fexp_normal by lia.
  replace (53 + Z.pos d + e - 53 - e) with (Z.pos d) by lia.
  cbn [shr shr_record_of_loc].
  set (mrs := SpecFloat.iter_pos shr_1 d _).
  assert (Hm : shr_m mrs = Z.pos pM / 2 ^ Z.pos d).
  { unfold mrs. by rewrite iter_pos_shr_m. }
  pose proof (round_nearest_even_bounds (shr_m mrs) (loc_of_shr_record mrs)) as Hr.
  assert (Hex : Z.pos pM = Z.pos pM / 2 ^ Z.pos d * 2 ^ Z.pos d →
                round_nearest_even (shr_m mrs) (loc_of_shr_record mrs)
                = Z.pos pM / 2 ^ Z.pos d).
  { intros Heq. unfold mrs. rewrite Heq at 1 2.
    rewrite iter_pos_shr_exact; [done|]. apply Z.div_pos; lia. }
  set (m1 := round_nearest_even (shr_m mrs) (loc_of_shr_record mrs)) in *.
  assert (Hq52 : 2 ^ 52 <= Z.pos pM / 2 ^ Z.pos d).
  { apply Z.div_le_lower_bound; [lia|].
    rewrite Z.pow_add_r in Hlo by lia. lia. }
  destruct m1 as [|p1|p1] eqn:Hm1; try lia.
  assert (Hdig1 : Z.pos (digits2_pos p1) = 53).
  { apply digits2_pos_unique. change (53 - 1) with 52. lia. }
  cbn [Zdigits2]. rewrite Hdig1, fexp_normal by lia.
  replace (53 + (e + Z.pos d) - 53 - (e + Z.pos d)) with 0 by lia.
  cbn [shr shr_m].
  replace (e + Z.pos d <=? emax - prec) with true
    by (symmetry; apply Z.leb_le; unfold emax, prec; lia).
  exists p1. split; [done|]. split; [lia|done].
Qed.

Lemma finite_leb_same_exp m1 m2 e :
  Z.pos m1 <= Z.pos m2 →
  SFleb (S754_finite false m1 e) (S754_finite false m2 e) = true.
Proof.
  intros Hle. unfold SFleb, SFcompare. rewrite Z.compare_refl.
  pose proof (Pos.compare_spec m1 m2) as Hc. unfold Pos.compare in Hc.
  destruct Hc as [Hc|Hc|Hc]; [done|done|].
  apply Pos2Z.pos_lt_pos in Hc. lia.
Qed.

Section NearBaseline.
Variables (mB : positive) (eB : Z).
Hypothesis eB_range : -52 <= eB <= -2.
Hypothesis lo_bound : 2 ^ 52 <= Z.pos mB - 2 ^ (-1 - eB).
Hypothesis hi_bound : Z.pos mB + 2 ^ (-1 - eB) + 1 < 2 ^ 53.

Lemma SF64add_near sy my ey :
  ey <= -53 → -1074 <= ey → Z.pos my <= 2 ^ (-1 - ey) →
  ∃ m, SF64add (S754_finite false mB eB) (S754_finite sy my ey)
         = S754_finite false m eB
       ∧ Z.pos mB - 2 ^ (-1 - eB) <= Z.pos m
         <= Z.pos mB + 2 ^ (-1 - eB).
Proof.
  intros Hey Hey' Hmy.
  unfold SF64add, SFadd. rewrite Z.min_r by lia.
  unfold shl_align at 2. rewrite Z.sub_diag. cbn [fst].
  unfold shl_align.
  destruct (ey - eB) as [|d|d] eqn:Hd; try lia.
  cbn [fst cond_Zopp].
  assert (HD : Z.pos d = eB - ey) by lia.
  change (Pos.iter xO mB d) with (shift_pos d mB).
  rewrite shift_pos_correct.
  change (Z.pow_pos 2 d) with (2 ^ Z.pos d).
  assert (Hhalf : 2 ^ (-1 - eB) * 2 ^ Z.pos d = 2 ^ (-1 - ey)).
  { rewrite <- Z.pow_add_r by lia. f_equal. lia. }
  assert (Hpd : 0 < 2 ^ Z.pos d) by (apply Z.pow_pos_nonneg; lia).
  set (H := 2 ^ (-1 - eB)) in *.
  set (M := 2 ^ Z.pos d * Z.pos mB + cond_Zopp sy (Z.pos my)).
  assert (HM : (Z.pos mB - H) * 2 ^ Z.pos d <= M <= (Z.pos mB + H) * 2 ^ Z.pos d).
  { unfold M. destruct sy; simpl; nia. }
  assert (H52 : 2 ^ (52 + Z.pos d) <= M).
  { rewrite Z.pow_add_r by lia. nia. }
  assert (H53 : M < 2 ^ (53 + Z.pos d)).
  { rewrite Z.pow_add_r by lia. nia. }
  assert (0 < 2 ^ (52 + Z.pos d)) by (apply Z.pow_pos_nonneg; lia).
  destruct M as [|pM|pM] eqn:HMeq; try lia.
  cbn [binary_normalize]. unfold binary_round.
  assert (Hdig : Z.pos (digits2_pos pM) = 53 + Z.pos d).
  { apply digits2_pos_unique.
    replace (53 + Z.pos d - 1) with (52 + Z.pos d) by lia. lia. }
  rewrite Hdig, fexp_normal by lia.
  unfold shl_align.
  replace (53 + Z.pos d + ey - 53 - ey) with (Z.pos d) by lia.
  assert (Hqlo : Z.pos mB - H <= Z.pos pM / 2 ^ Z.pos d).
  { apply Z.div_le_lower_bound; lia. }
  assert (Hqhi : Z.pos pM / 2 ^ Z.pos d <= Z.pos mB + H).
  { apply Z.div_le_upper_bound; lia. }
  destruct (binary_round_aux_shift false pM ey d) as (m & Hm & Hb & Hex);
    [lia|lia|lia|].
  replace (ey + Z.pos d) with eB in Hm by lia.
  exists m. split; [done|]. split; [lia|].
  destruct (decide (Z.pos pM / 2 ^ Z.pos d = Z.pos mB + H)) as [Hq|Hq]; [|lia].
  rewrite Hex; [lia|].
  pose proof (Z.mul_div_le (Z.pos pM) (2 ^ Z.pos d) Hpd) as Hdiv. nia.
Qed.
End NearBaseline.

Lemma valid_finite_bounds s m e :
  valid_binary (S754_finite s m e) = true →
  -1074 <= e ∧ Z.pos m < 2 ^ 53.
Proof.
  unfold SpecFloat.valid_binary, bounded, canonical_mantissa.
  intros [Hc _]%andb_prop. apply Z.eqb_eq in Hc.
  unfold fexp, emin, prec, emax in Hc.
  split; [lia|].
  pose proof (Pos.size_gt m) as Hgt. apply Pos2Z.pos_lt_pos in Hgt.
  rewrite Pos2Z.inj_pow in Hgt. rewrite digits2_pos_size in Hc.
  eapply Z.lt_le_trans; [exact Hgt|].
  apply Z.pow_le_mono_r; lia.
Qed.

(** A valid value between [-0.5] and [0.5] is a zero or a finite number
    [±my * 2^ey] with [my * 2^ey <= 1/2]. *)
Lemma half_range_cases x :
  valid_binary x = true →
  SFleb half_neg x = true → SFleb x half_pos = true →
  (∃ s, x = S754_zero s) ∨
  (∃ sy my ey, x = S754_finite sy my ey ∧ -1074 <= ey <= -53
               ∧ Z.pos my <= 2 ^ (-1 - ey)).
Proof.
  intros Hv Hlo Hhi. destruct x as [s|s| |sy my ey].
  - left. by exists s.
  - destruct s; simpl in *; discriminate.
  - simpl in *. discriminate.
  - right. exists sy, my, ey. split; [done|].
    apply valid_finite_bounds in Hv as [He Hm].
    assert (Hcase : ey < -53 ∨ (ey = -53 ∧ Z.pos my <= 2 ^ 52)).
    { change (2 ^ 52) with 4503599627370496.
      unfold SFleb, SFcompare, half_pos, half_neg in Hlo, Hhi. destruct sy.
      - destruct (Z.compare_spec (-53) ey) as [Heq|Hlt|Hgt];
          [|discriminate|left; lia].
        right. split; [lia|].
        pose proof (Pos.compare_spec 4503599627370496 my) as Hc.
        unfold Pos.compare in Hc.
        destruct Hc as [Hc|Hc|Hc]; [subst my; lia|discriminate|].
        apply Pos2Z.pos_lt_pos in Hc. lia.
      - destruct (Z.compare_spec ey (-53)) as [Heq|Hlt|Hgt];
          [|left; lia|discriminate].
        right. split; [lia|].
        pose proof (Pos.compare_spec my 4503599627370496) as Hc.
        unfold Pos.compare in Hc.
        destruct Hc as [Hc|Hc|Hc]; [subst my; lia| |discriminate].
        apply Pos2Z.pos_lt_pos in Hc. lia. }
    destruct Hcase as [Hlt|[-> Hle]].
    + split; [lia|]. apply Z.lt_le_incl. eapply Z.lt_le_trans; [exact Hm|].
      apply Z.pow_le_mono_r; lia.
    + split; [lia|]. exact Hle.
Qed.

End Binary64.

(** * Readings of the simulation loop stay inside the accepted range *)

Lemma noise_ok_cases u :
  noise_ok u = true →
  (∃ s, Prim2SF u = S754_zero s) ∨
  (∃ sy my ey, Prim2SF u = S754_finite sy my ey ∧ (-1074 <= ey <= -53
               ∧ Z.pos my <= 2 ^ (-1 - ey))%Z).
Proof.
  unfold noise_ok. intros [Hlo Hhi]%andb_prop.
  rewrite FloatAxioms.leb_spec in Hlo, Hhi.
  apply Binary64.half_range_cases; [apply Prim2SF_valid|exact Hlo|exact Hhi].
Qed.

Lemma temperature_near_29 u :
  noise_ok u = true →
  PrimFloat.ltb (-10) (29 + u) = true ∧ PrimFloat.ltb (29 + u) 60 = true.
Proof.
  intros Hu. rewrite !FloatAxioms.ltb_spec, FloatAxioms.add_spec.
  assert (H29 : Prim2SF 29 = S754_finite false 8162774324609024 (-48))
    by (vm_compute; reflexivity).
  assert (H10 : Prim2SF (-10) = S754_finite true 5629499534213120 (-49))
    by (vm_compute; reflexivity).
  assert (H60 : Prim2SF 60 = S754_finite false 8444249301319680 (-47))
    by (vm_compute; reflexivity).
  rewrite H29, H10, H60.
  destruct (noise_ok_cases u Hu) as [[s ->]|(sy & my & ey & -> & He & Hm)].
  - split; reflexivity.
  - assert (Hlo : (2 ^ 52 <= Z.pos 8162774324609024 - 2 ^ (-1 - -48))%Z)
      by (vm_compute; discriminate).
    assert (Hhi : (Z.pos 8162774324609024 + 2 ^ (-1 - -48) + 1 < 2 ^ 53)%Z)
      by (vm_compute; reflexivity).
    destruct (Binary64.SF64add_near 8162774324609024 (-48) ltac:(lia) Hlo Hhi
                sy my ey) as (m & -> & _); [apply He|apply He|apply Hm|].
    split; reflexivity.
Qed.

Lemma humidity_near_80 u :
  noise_ok u = true →
  PrimFloat.leb 0 (80 + u) = true ∧ PrimFloat.leb (80 + u) 100 = true.
Proof.
  intros Hu. rewrite !FloatAxioms.leb_spec, FloatAxioms.add_spec.
  assert (H80 : Prim2SF 80 = S754_finite false 5629499534213120 (-46))
    by (vm_compute; reflexivity).
  assert (H0 : Prim2SF 0 = S754_zero false) by (vm_compute; reflexivity).
  assert (H100 : Prim2SF 100 = S754_finite false 7036874417766400 (-46))
    by (vm_compute; reflexivity).
  rewrite H80, H0, H100.
  destruct (noise_ok_cases u Hu) as [[s ->]|(sy & my & ey & -> & He & Hm)].
  - split; reflexivity.
  - assert (Hlo : (2 ^ 52 <= Z.pos 5629499534213120 - 2 ^ (-1 - -46))%Z)
      by (vm_compute; discriminate).
    assert (Hhi : (Z.pos 5629499534213120 + 2 ^ (-1 - -46) + 1 < 2 ^ 53)%Z)
      by (vm_compute; reflexivity).
    destruct (Binary64.SF64add_near 5629499534213120 (-46) ltac:(lia) Hlo Hhi
                sy my ey) as (m & -> & _ & Hb); [apply He|apply He|apply Hm|].
    split; [reflexivity|].
    apply Binary64.finite_leb_same_exp.
    assert (HK : (Z.pos 5629499534213120 + 2 ^ (-1 - -46)
                  <= Z.pos 7036874417766400)%Z) by (vm_compute; discriminate).
    exact (Z.le_trans _ _ _ Hb HK).
Qed.

Lemma simulated_reading_in_range u_t u_h :
  noise_ok u_t = true → noise_ok u_h = true →
  in_range (29 + u_t) (80 + u_h) = true.
Proof.
  intros [H1 H2]%temperature_near_29 [H3 H4]%humidity_near_80.
  unfold in_range. by rewrite H1, H2, H3, H4.
Qed.

(** * The sample store *)

Lemma buffer_of_deque w n items :
  heap w !! buffer_loc = Some (ODeque n items) → buffer_of w = items.
Proof. unfold buffer_of. by intros ->. Qed.

Lemma safe_append_deque w n items now t h :
  heap w !! buffer_loc = Some (ODeque n items) →
  safe_append now t h w =
    (Ok tt,
     mkWorld (<[buffer_loc := ODeque n (deque_append n items (mkSample now t h))]> (heap w))
             (console w)).
Proof. unfold safe_append. by intros ->. Qed.

Lemma deque_append_length n d x :
  length d ≤ n → length (deque_append n d x) ≤ n.
Proof.
  intros Hd. unfold deque_append. case_decide as Hlt.
  - destruct d as [|y d]; simpl in *; [lia|]. rewrite length_app. simpl. lia.
  - lia.
Qed.

Lemma deque_append_full n y d x :
  length (y :: d) = n → deque_append n (y :: d) x = d ++ [x].
Proof.
  intros Hn. unfold deque_append. rewrite decide_True; [done|].
  rewrite length_app. simpl in *. lia.
Qed.

Lemma deque_append_room n d x :
  length d < n → deque_append n d x = d ++ [x].
Proof.
  intros Hn. unfold deque_append. rewrite decide_False; [done|].
  rewrite length_app. simpl. lia.
Qed.

Lemma tail_drop {A} (l : list A) : tail l = drop 1 l.
Proof. by destruct l. Qed.

Lemma deque_append_drop n all x :
  deque_append n (drop (length all - n) all) x
  = drop (length (all ++ [x]) - n) (all ++ [x]).
Proof.
  unfold deque_append. rewrite !length_app, length_drop. simpl.
  case_decide as Hlt.
  - rewrite tail_drop, <- drop_app_le by lia.
    rewrite drop_drop. f_equal. lia.
  - replace (length all - n) with 0 by lia.
    replace (length all + 1 - n) with 0 by lia. done.
Qed.

Lemma foldl_deque_append n (l : list Sample) :
  foldl (deque_append n) [] l = drop (length l - n) l.
Proof.
  induction l as [|x l IH] using rev_ind; [done|].
  rewrite foldl_app. simpl. rewrite IH. apply deque_append_drop.
Qed.

Lemma appends_deque inputs : ∀ w n items,
  heap w !! buffer_loc = Some (ODeque n items) →
  heap (appends inputs w) !! buffer_loc
  = Some (ODeque n (foldl (deque_append n) items (sample_of <$> inputs))).
Proof.
  unfold appends.
  induction inputs as [|[[now t] h] inputs IH]; intros w n items Hw; [done|].
  simpl. rewrite (safe_append_deque _ _ _ _ _ _ Hw). simpl.
  apply IH. simpl. apply lookup_insert_eq.
Qed.

Lemma init_world_deque :
  heap init_world !! buffer_loc = Some (ODeque MAX_POINTS []).
Proof. unfold init_world. simpl. apply lookup_singleton_eq. Qed.

(** C1. Whatever the sequence of appends, the store never holds more than
    [MAX_POINTS] samples: it holds the last [MAX_POINTS] appended ones in
    arrival order, every append succeeds, and an append to a full store
    drops exactly the head, the oldest sample still held. *)
Theorem store_bounded_fifo (inputs : list (Z * float * float))
    (now : Z) (t h : float) :
  let w := appends inputs init_world in
  let w' := snd (safe_append now t h w) in
  size w ≤ MAX_POINTS ∧
  buffer_of w = drop (length inputs - MAX_POINTS) (sample_of <$> inputs) ∧
  fst (safe_append now t h w) = Ok tt ∧
  buffer_of w' =
    (if decide (size w = MAX_POINTS) then tail (buffer_of w) else buffer_of w)
    ++ [mkSample now t h].
Proof.
  intros w w'.
  pose proof (appends_deque inputs _ _ _ init_world_deque) as Hw.
  fold w in Hw. rewrite foldl_deque_append, length_fmap in Hw.
  assert (Hbuf : buffer_of w
                 = drop (length inputs - MAX_POINTS) (sample_of <$> inputs))
    by exact (buffer_of_deque _ _ _ Hw).
  assert (Hsize : size w ≤ MAX_POINTS).
  { unfold size. rewrite Hbuf, length_drop, length_fmap. lia. }
  split; [done|]. split; [done|].
  unfold w'. rewrite (safe_append_deque _ _ _ _ _ _ Hw). simpl.
  split; [done|].
  unfold buffer_of at 1. simpl. rewrite lookup_insert_eq.
  rewrite <- Hbuf. unfold size in *.
  case_decide as Hfull.
  - destruct (buffer_of w) as [|y d] eqn:Hd.
    + exfalso. revert Hfull. unfold MAX_POINTS. simpl. lia.
    + simpl. by apply deque_append_full.
  - apply deque_append_room. lia.
Qed.

(** * Ingestion of live messages *)

Lemma parse_payload_ok pd pf payload t h :
  parse_payload pd pf payload = Ok (t, h) ↔
  ∃ text f1 f2 rest,
    pd payload = Ok text ∧ str_split "," text = f1 :: f2 :: rest ∧
    pf f1 = Ok t ∧ pf f2 = Ok h.
Proof.
  unfold parse_payload, unpack_two_floats. split.
  - destruct (pd payload) as [text|e]; simpl; [|done].
    destruct (str_split "," text) as [|f1 [|f2 rest]] eqn:Hs; simpl; [done| |].
    + destruct (pf f1); simpl; done.
    + destruct (pf f1) as [x|] eqn:H1; simpl; [|done].
      destruct (pf f2) as [y|] eqn:H2; simpl; [|done].
      intros [= -> ->]. by exists text, f1, f2, rest.
  - intros (text & f1 & f2 & rest & -> & Hs & H1 & H2). simpl.
    rewrite Hs. simpl. by rewrite H1, H2.
Qed.

Lemma in_range_true t h :
  in_range t h = true ↔
  PrimFloat.ltb (-10) t = true ∧ PrimFloat.ltb t 60 = true ∧
  PrimFloat.leb 0 h = true ∧ PrimFloat.leb h 100 = true.
Proof. unfold in_range. rewrite !andb_true_iff. tauto. Qed.

Lemma valid_reading_parse pd pf payload t h :
  valid_reading pd pf payload t h ↔
  parse_payload pd pf payload = Ok (t, h) ∧ in_range t h = true.
Proof.
  unfold valid_reading. rewrite parse_payload_ok, in_range_true. split.
  - intros (text & f1 & f2 & rest & ? & ? & ? & ? & ?). split; [|done].
    by exists text, f1, f2, rest.
  - intros [(text & f1 & f2 & rest & ? & ? & ? & ?) ?].
    by exists text, f1, f2, rest.
Qed.

Lemma on_message_accept pd pf now payload w n items t h :
  heap w !! buffer_loc = Some (ODeque n items) →
  parse_payload pd pf payload = Ok (t, h) → in_range t h = true →
  on_message pd pf now payload w = safe_append now t h w.
Proof.
  intros Hw Hp Hr. unfold on_message, try_except, validate_and_append.
  unfold mbind, M_bind, lift. rewrite Hp, Hr.
  by rewrite (safe_append_deque _ _ _ _ _ _ Hw).
Qed.

Lemma on_message_out_of_range pd pf now payload w t h :
  parse_payload pd pf payload = Ok (t, h) → in_range t h = false →
  on_message pd pf now payload w = (Ok tt, w).
Proof.
  intros Hp Hr. unfold on_message, try_except, validate_and_append.
  unfold mbind, M_bind, lift. by rewrite Hp, Hr.
Qed.

Lemma on_message_parse_error pd pf now payload w e :
  parse_payload pd pf payload = Raise e →
  on_message pd pf now payload w
  = (Ok tt, mkWorld (heap w) (console w ++ ["⚠️ Parse error: " +:+ exn_str e])).
Proof.
  intros Hp. unfold on_message, try_except.
  unfold mbind, M_bind, lift. by rewrite Hp.
Qed.

Lemma deque_append_last n d x :
  0 < n → last (deque_append n d x) = Some x.
Proof.
  intros Hn. unfold deque_append. case_decide as Hlt.
  - destruct d as [|y d]; simpl in *; [lia|]. apply last_snoc.
  - apply last_snoc.
Qed.

(** A message that is not a valid reading leaves the heap as it is. *)
Lemma on_message_reject pd pf now payload w :
  (¬ ∃ t h, valid_reading pd pf payload t h) →
  fst (on_message pd pf now payload w) = Ok tt ∧
  heap (snd (on_message pd pf now payload w)) = heap w.
Proof.
  intros Hno.
  destruct (parse_payload pd pf payload) as [[t h]|e] eqn:Hp.
  - destruct (in_range t h) eqn:Hr.
    + exfalso. apply Hno. exists t, h. by apply valid_reading_parse.
    + by rewrite (on_message_out_of_range _ _ _ _ _ _ _ Hp Hr).
  - by rewrite (on_message_parse_error _ _ _ _ _ _ Hp).
Qed.

Lemma size_heap w w' : heap w' = heap w → size w' = size w.
Proof. unfold size, buffer_of. by intros ->. Qed.

(** C2. [on_message] never raises.  It appends a sample, carrying the parsed
    temperature and humidity, exactly when the payload decodes and its first
    two comma-separated fields convert to floats [t], [h] with
    [-10 < t < 60] and [0 <= h <= 100]; any other message leaves the store,
    and so its size, unchanged.  With the reference builtins, ["25.0,55.0"]
    is appended as (25.0, 55.0), and ["100.0,55.0"] and ["abc,55.0"] are
    rejected without raising. *)
Theorem on_message_appends_iff_valid
    (py_decode : string → result string) (py_float : string → result float)
    (w : World) (items : list Sample) (now : Z) (payload : string) :
  heap w !! buffer_loc = Some (ODeque MAX_POINTS items) →
  let r := on_message py_decode py_float now payload w in
  fst r = Ok tt ∧
  (∀ t h, valid_reading py_decode py_float payload t h →
     r = safe_append now t h w ∧
     buffer_of (snd r) = deque_append MAX_POINTS items (mkSample now t h) ∧
     last (buffer_of (snd r)) = Some (mkSample now t h)) ∧
  ((¬ ∃ t h, valid_reading py_decode py_float payload t h) →
     heap (snd r) = heap w ∧ size (snd r) = size w) ∧
  buffer_of (snd (on_message ascii_decode float_of_decimal now "25.0,55.0" w))
    = deque_append MAX_POINTS items (mkSample now 25 55) ∧
  (let r := on_message ascii_decode float_of_decimal now "100.0,55.0" w in
   fst r = Ok tt ∧ size (snd r) = size w) ∧
  (let r := on_message ascii_decode float_of_decimal now "abc,55.0" w in
   fst r = Ok tt ∧ size (snd r) = size w).
Proof.
  intros Hw r.
  assert (Hacc : ∀ pd pf p t h,
            parse_payload pd pf p = Ok (t, h) → in_range t h = true →
            on_message pd pf now p w = safe_append now t h w ∧
            buffer_of (snd (on_message pd pf now p w))
              = deque_append MAX_POINTS items (mkSample now t h)).
  { intros pd pf p t h Hp Hr.
    rewrite (on_message_accept _ _ _ _ _ _ _ _ _ Hw Hp Hr).
    split; [done|]. rewrite (safe_append_deque _ _ _ _ _ _ Hw). simpl.
    unfold buffer_of. simpl. by rewrite lookup_insert_eq. }
  assert (Hrej : ∀ p, (¬ ∃ t h, valid_reading ascii_decode float_of_decimal p t h) →
            fst (on_message ascii_decode float_of_decimal now p w) = Ok tt ∧
            size (snd (on_message ascii_decode float_of_decimal now p w)) = size w).
  { intros p Hno. destruct (on_message_reject _ _ now p w Hno) as [? ?].
    split; [done|]. by apply size_heap. }
  split; [|split; [|split; [|split; [|split]]]].
  - subst r.
    destruct (parse_payload py_decode py_float payload) as [[t h]|e] eqn:Hp.
    + destruct (in_range t h) eqn:Hr.
      * destruct (Hacc _ _ _ _ _ Hp Hr) as [-> _].
        by rewrite (safe_append_deque _ _ _ _ _ _ Hw).
      * by rewrite (on_message_out_of_range _ _ _ _ _ _ _ Hp Hr).
    + by rewrite (on_message_parse_error _ _ _ _ _ _ Hp).
  - intros t h [Hp Hr]%valid_reading_parse.
    destruct (Hacc _ _ _ _ _ Hp Hr) as [H1 H2].
    split; [done|]. split; [done|]. subst r. rewrite H2.
    apply deque_append_last. unfold MAX_POINTS. lia.
  - intros Hno. destruct (on_message_reject _ _ now payload w Hno) as [? ?].
    split; [done|]. by apply size_heap.
  - apply (Hacc ascii_decode float_of_decimal "25.0,55.0" 25%float 55%float);
      vm_compute; reflexivity.
  - apply Hrej. intros (t & h & [Hp Hr]%valid_reading_parse).
    vm_compute in Hp. injection Hp as <- <-. vm_compute in Hr. discriminate.
  - apply Hrej. intros (t & h & [Hp Hr]%valid_reading_parse).
    vm_compute in Hp. discriminate.
Qed.

Lemma on_message_appends_iff_valid_witness :
  fst (on_message ascii_decode float_of_decimal 0 "25.0,55.0" init_world)
  = Ok tt.
Proof.
  exact (proj1 (on_message_appends_iff_valid ascii_decode float_of_decimal
                  init_world [] 0 "25.0,55.0" init_world_deque)).
Defined.

(** * Snapshots and window queries *)

#[global] Instance ts_le_total : Total ts_le.
Proof. intros a b. unfold ts_le. lia. Qed.

#[global] Instance ts_le_trans : Transitive ts_le.
Proof. intros a b c. unfold ts_le. lia. Qed.

Lemma fresh_loc_spec (h : gmap loc obj) :
  fresh_loc h ≠ buffer_loc ∧ h !! fresh_loc h = None.
Proof.
  pose proof (is_fresh ({[buffer_loc]} ∪ dom h)) as Hf. fold (fresh_loc h) in Hf.
  split.
  - intros Heq. apply Hf. rewrite Heq. set_solver.
  - apply not_elem_of_dom. set_solver.
Qed.

Lemma zip_with_restore_ts (rows : list Sample) :
  zip_with (λ s v, mkSample v (temperature s) (humidity s)) rows (ts <$> rows)
  = rows.
Proof. induction rows as [|[a t h] rows IH]; csimpl; [done|]. by rewrite IH. Qed.

Lemma boolean_index_rows (P : Z → Prop) `{∀ v, Decision (P v)}
    (rows : list Sample) :
  fst <$> filter (λ p, snd p = true)
            (zip rows ((λ v, bool_decide (P v)) <$> (ts <$> rows)))
  = filter (λ s, P (ts s)) rows.
Proof.
  induction rows as [|s rows IH]; csimpl; [done|].
  rewrite !filter_cons. csimpl. rewrite <- IH.
  destruct (decide (P (ts s))) as [Hp|Hp].
  - rewrite bool_decide_true by done. by rewrite decide_True.
  - rewrite bool_decide_false by done. by rewrite decide_False.
Qed.

Lemma ts_in_sample_columns : "ts" ∈ sample_columns.
Proof. unfold sample_columns. set_solver. Qed.

(** What [df_buf] does on a world that holds the deque: it allocates the
    list copy, then the frame it returns, and touches nothing else. *)
Lemma df_buf_eq w n items now mins :
  heap w !! buffer_loc = Some (ODeque n items) →
  let l1 := fresh_loc (heap w) in
  let h1 := <[l1 := OList items]> (heap w) in
  let l2 := fresh_loc h1 in
  df_buf now mins w
  = (Ok l2,
     mkWorld (<[l2 := OFrame (window_frame now mins items)]> h1) (console w)).
Proof.
  intros Hw l1 h1 l2. unfold df_buf, snapshot, mbind, M_bind.
  rewrite Hw. unfold alloc at 1. cbn [heap console].
  fold l1. fold h1. unfold load_list. cbn [heap].
  unfold h1 at 1. rewrite lookup_insert_eq.
  destruct items as [|s items]; [done|].
  set (rows := s :: items).
  assert (Hcols : df_columns (DataFrame_of_rows rows) = sample_columns) by done.
  unfold lift, getitem_ts, getitem. rewrite Hcols.
  rewrite (decide_True _ _ ts_in_sample_columns).
  unfold setitem_ts, to_datetime. rewrite Hcols.
  rewrite (decide_True _ _ ts_in_sample_columns).
  change (df_rows (DataFrame_of_rows rows)) with rows.
  rewrite zip_with_restore_ts.
  unfold window_frame, window_filter. fold rows.
  destruct (decide (0 < mins)%Z) as [Hm|Hm].
  - cbn [df_columns df_rows]. rewrite (decide_True _ _ ts_in_sample_columns).
    unfold mret, M_ret, boolean_index, sort_values_ts.
    cbn [df_columns df_rows].
    rewrite (decide_True _ _ ts_in_sample_columns).
    rewrite (boolean_index_rows (λ v, (now - timedelta_minutes mins < v)%Z)).
    done.
  - unfold mret, M_ret, sort_values_ts. cbn [df_columns df_rows].
    by rewrite (decide_True _ _ ts_in_sample_columns).
Qed.

Lemma df_buf_result w n items now mins :
  heap w !! buffer_loc = Some (ODeque n items) →
  ∃ r, fst (df_buf now mins w) = Ok r ∧ r ≠ buffer_loc ∧ heap w !! r = None ∧
       heap (snd (df_buf now mins w)) !! r
       = Some (OFrame (window_frame now mins items)) ∧
       heap (snd (df_buf now mins w)) !! buffer_loc = Some (ODeque n items) ∧
       console (snd (df_buf now mins w)) = console w.
Proof.
  intros Hw. rewrite (df_buf_eq _ _ _ now mins Hw). cbn [fst snd heap console].
  set (l1 := fresh_loc (heap w)).
  set (h1 := <[l1 := OList items]> (heap w)).
  destruct (fresh_loc_spec (heap w)) as [Hl1 Hn1]. fold l1 in Hl1, Hn1.
  destruct (fresh_loc_spec h1) as [Hl2 Hn2].
  exists (fresh_loc h1). split; [done|]. split; [done|].
  assert (Hne : l1 ≠ fresh_loc h1).
  { intros Heq. rewrite <- Heq in Hn2. unfold h1 in Hn2.
    by rewrite lookup_insert_eq in Hn2. }
  split.
  { unfold h1 in Hn2. by rewrite lookup_insert_ne in Hn2. }
  split; [apply lookup_insert_eq|]. split; [|done].
  rewrite lookup_insert_ne by done. unfold h1.
  by rewrite lookup_insert_ne.
Qed.

Lemma window_frame_rows now mins items :
  df_rows (window_frame now mins items) ≡ₚ window_filter now mins items
  ∧ StronglySorted ts_le (df_rows (window_frame now mins items)).
Proof.
  unfold window_frame. destruct items as [|s items].
  - unfold window_filter. simpl. case_decide; split; try done; constructor.
  - cbn [df_rows]. split.
    + apply merge_sort_Permutation.
    + apply (StronglySorted_merge_sort _).
Qed.

(** C3. For a window of [mins > 0] minutes and any store content, [df_buf]
    returns a frame whose rows are exactly the held samples with
    [ts > now - mins minutes] (as a multiset), in ascending order of [ts];
    a sample whose timestamp equals the cut-off is left out. *)
Theorem df_buf_window (w : World) (n : nat) (items : list Sample)
    (now mins : Z) :
  heap w !! buffer_loc = Some (ODeque n items) →
  (0 < mins)%Z →
  ∃ r df,
    fst (df_buf now mins w) = Ok r ∧
    heap (snd (df_buf now mins w)) !! r = Some (OFrame df) ∧
    df_rows df
      ≡ₚ filter (λ s, (now - timedelta_minutes mins < ts s)%Z) items ∧
    StronglySorted ts_le (df_rows df) ∧
    (∀ s, s ∈ df_rows df ↔
          s ∈ items ∧ (now - timedelta_minutes mins < ts s)%Z) ∧
    (∀ s, ts s = (now - timedelta_minutes mins)%Z → s ∉ df_rows df).
Proof.
  intros Hw Hm.
  destruct (df_buf_result _ _ _ now mins Hw) as (r & Hr & _ & _ & Hf & _).
  destruct (window_frame_rows now mins items) as [Hperm Hsort].
  unfold window_filter in Hperm. rewrite decide_True in Hperm by done.
  exists r, (window_frame now mins items).
  split; [done|]. split; [done|]. split; [done|]. split; [done|].
  assert (Hin : ∀ s, s ∈ df_rows (window_frame now mins items) ↔
                     s ∈ items ∧ (now - timedelta_minutes mins < ts s)%Z).
  { intros s. rewrite Hperm, list_elem_of_filter. tauto. }
  split; [done|].
  intros s Heq [_ Hlt]%Hin. lia.
Qed.

Lemma df_buf_window_witness :
  ∃ r df,
    fst (df_buf 120000000 1 (appends [(60000000%Z, 25%float, 55%float); (90000000%Z, 26%float, 50%float)] init_world)) = Ok r ∧
    heap (snd (df_buf 120000000 1 (appends [(60000000%Z, 25%float, 55%float); (90000000%Z, 26%float, 50%float)] init_world))) !! r
      = Some (OFrame df) ∧
    df_rows df = [mkSample 90000000 26 50].
Proof.
  destruct (df_buf_window
              (appends [(60000000%Z, 25%float, 55%float); (90000000%Z, 26%float, 50%float)] init_world)
              MAX_POINTS
              [mkSample 60000000 25 55; mkSample 90000000 26 50]
              120000000 1)
    as (r & df & Hr & Hf & Hperm & _); [reflexivity|lia|].
  exists r, df. split; [exact Hr|]. split; [exact Hf|].
  apply Permutation_singleton_r. exact Hperm.
Defined.

Lemma filter_window_none (c : Z) (l : list Sample) :
  Forall (λ s, (ts s ≤ c)%Z) l → filter (λ s, (c < ts s)%Z) l = [].
Proof.
  induction 1 as [|s l Hs Hall IH]; [done|].
  rewrite filter_cons, decide_False by lia. exact IH.
Qed.

(** C4. With [mins = 0] ("all data") [df_buf] returns every held sample,
    in ascending order of [ts]; and for every window, an empty store or a
    filter that keeps no sample gives a frame without rows (still with its
    three columns), never an exception. *)
Theorem df_buf_all_data_and_empty (w : World) (n : nat) (items : list Sample)
    (now mins : Z) :
  heap w !! buffer_loc = Some (ODeque n items) →
  (∃ r df,
     fst (df_buf now 0 w) = Ok r ∧
     heap (snd (df_buf now 0 w)) !! r = Some (OFrame df) ∧
     df_rows df ≡ₚ items ∧ StronglySorted ts_le (df_rows df)) ∧
  (∃ r df,
     fst (df_buf now mins w) = Ok r ∧
     heap (snd (df_buf now mins w)) !! r = Some (OFrame df) ∧
     (items = [] ∨
      ((0 < mins)%Z ∧
       Forall (λ s, (ts s ≤ now - timedelta_minutes mins)%Z) items) →
      df_rows df = [] ∧ df_is_empty df = true ∧
      df_columns df = sample_columns)).
Proof.
  intros Hw. split.
  - destruct (df_buf_result _ _ _ now 0%Z Hw) as (r & Hr & _ & _ & Hf & _).
    destruct (window_frame_rows now 0 items) as [Hperm Hsort].
    exists r, (window_frame now 0 items). by repeat split.
  - destruct (df_buf_result _ _ _ now mins Hw) as (r & Hr & _ & _ & Hf & _).
    exists r, (window_frame now mins items).
    split; [done|]. split; [done|].
    intros Hempty.
    assert (Hnil : items = [] ∨ window_filter now mins items = []).
    { destruct Hempty as [->|[Hm Hall]]; [by left|right].
      unfold window_filter. rewrite decide_True by done.
      by apply filter_window_none. }
    unfold window_frame. destruct items as [|s items]; [done|].
    destruct Hnil as [|Hnil]; [done|]. rewrite Hnil.
    cbn [df_rows df_columns]. split; [|done].
    apply Permutation_nil_r. apply merge_sort_Permutation.
Qed.

Lemma df_buf_all_data_and_empty_witness :
  ∃ r df,
    fst (df_buf 5 0 init_world) = Ok r ∧
    heap (snd (df_buf 5 0 init_world)) !! r = Some (OFrame df) ∧
    df_rows df ≡ₚ [] ∧ StronglySorted ts_le (df_rows df).
Proof.
  exact (proj1 (df_buf_all_data_and_empty init_world MAX_POINTS [] 5 0
                  init_world_deque)).
Defined.

(** * Analytics helpers *)

(** C5. [safe_range] returns [(0.0, 1.0)] when [lo] or [hi] is NaN,
    [(lo - expand, lo + expand)] when neither is and [hi <= lo], and
    [(lo, hi)] unchanged otherwise; so [safe_range(5, 5, 0.1) = (4.9, 5.1)],
    [safe_range(NaN, 5, 0.1) = (0.0, 1.0)] and
    [safe_range(2, 8, 0.1) = (2, 8)]. *)
Theorem safe_range_cases (lo hi expand : float) :
  (PrimFloat.is_nan lo = true ∨ PrimFloat.is_nan hi = true →
   safe_range lo hi expand = (0, 1)%float) ∧
  (PrimFloat.is_nan lo = false → PrimFloat.is_nan hi = false →
   PrimFloat.leb hi lo = true →
   safe_range lo hi expand = (lo - expand, lo + expand)%float) ∧
  (PrimFloat.is_nan lo = false → PrimFloat.is_nan hi = false →
   PrimFloat.leb hi lo = false →
   safe_range lo hi expand = (lo, hi)) ∧
  safe_range 5 5 0.1 = (4.9, 5.1)%float ∧
  safe_range nan 5 0.1 = (0, 1)%float ∧
  safe_range 2 8 0.1 = (2, 8)%float.
Proof.
  unfold safe_range. repeat split.
  - intros [-> | ->]; [done|]. by rewrite orb_true_r.
  - by intros -> -> ->.
  - by intros -> -> ->.
Qed.

(** C6 (what the code does on degenerate windows).  [DataFrame.corr()] of
    the two numeric columns always has shape (2, 2), so the identity matrix
    of line 234 is never substituted: [correlation] is [corr].  On a window
    of one sample every coefficient is NaN, and on a window whose
    temperature is constant the coefficients involving temperature are
    NaN; neither result is the identity matrix. *)
Theorem correlation_degenerate_is_nan :
  (∀ df, correlation df = corr df) ∧
  correlation (mkFrame sample_columns [mkSample 0 25 55])
    = Ok [[nan; nan]; [nan; nan]] ∧
  correlation (mkFrame sample_columns [mkSample 0 25 50; mkSample 1 25 60])
    = Ok [[nan; nan]; [nan; 1%float]] ∧
  [[nan; nan]; [nan; nan]] ≠ identity_matrix ∧
  [[nan; nan]; [nan; 1%float]] ≠ identity_matrix.
Proof.
  split; [|split; [|split; [|split]]].
  - intros df. unfold correlation, corr.
    destruct (getitem temperature df "temperature") as [t|e]; [|done].
    destruct (getitem humidity df "humidity") as [h|e]; done.
  - vm_compute. reflexivity.
  - vm_compute. reflexivity.
  - unfold identity_matrix. intros Heq.
    assert (Hn : PrimFloat.is_nan nan = PrimFloat.is_nan 1) by congruence.
    vm_compute in Hn. discriminate.
  - unfold identity_matrix. intros Heq.
    assert (Hn : PrimFloat.is_nan nan = PrimFloat.is_nan 1) by congruence.
    vm_compute in Hn. discriminate.
Qed.

(** * The simulation loop and the validator *)





(** * Frame properties: who changes what in the heap *)

Lemma safe_append_heap_other now t h w l :
  l ≠ buffer_loc →
  heap (snd (safe_append now t h w)) !! l = heap w !! l.
Proof.
  intros Hl. unfold safe_append.
  destruct (heap w !! buffer_loc) as [[n items| |]|]; simpl; try done.
  by rewrite lookup_insert_ne.
Qed.

Lemma on_message_heap_other pd pf now payload w l :
  l ≠ buffer_loc →
  heap (snd (on_message pd pf now payload w)) !! l = heap w !! l.
Proof.
  intros Hl. unfold on_message, try_except, validate_and_append.
  unfold mbind, M_bind, lift.
  destruct (parse_payload pd pf payload) as [[t h]|e]; [|done].
  destruct (in_range t h); [|done].
  pose proof (safe_append_heap_other now t h w l Hl) as Hs.
  destruct (safe_append now t h w) as [[[]|e] w'] eqn:Heq; simpl in *; done.
Qed.

Lemma df_buf_preserves now mins w l o :
  heap w !! l = Some o → heap (snd (df_buf now mins w)) !! l = Some o.
Proof.
  intros Hl.
  destruct (heap w !! buffer_loc) as [[n items| |]|] eqn:Hw.
  - rewrite (df_buf_eq _ _ _ now mins Hw). cbn [snd heap].
    set (l1 := fresh_loc (heap w)).
    set (h1 := <[l1 := OList items]> (heap w)).
    destruct (fresh_loc_spec (heap w)) as [_ Hn1]. fold l1 in Hn1.
    destruct (fresh_loc_spec h1) as [_ Hn2].
    assert (Hl1 : h1 !! l = Some o).
    { unfold h1. rewrite lookup_insert_ne; [done|]. congruence. }
    rewrite lookup_insert_ne; [done|]. congruence.
  - unfold df_buf, snapshot, mbind, M_bind. by rewrite Hw.
  - unfold df_buf, snapshot, mbind, M_bind. by rewrite Hw.
  - unfold df_buf, snapshot, mbind, M_bind. by rewrite Hw.
Qed.

Lemma df_buf_buffer now mins w :
  buffer_of (snd (df_buf now mins w)) = buffer_of w.
Proof.
  unfold buffer_of at 2.
  destruct (heap w !! buffer_loc) as [[n items| |]|] eqn:Hw.
  - unfold buffer_of. by rewrite (df_buf_preserves now mins w _ _ Hw).
  - unfold buffer_of. by rewrite (df_buf_preserves now mins w _ _ Hw).
  - unfold buffer_of. by rewrite (df_buf_preserves now mins w _ _ Hw).
  - unfold df_buf, snapshot, mbind, M_bind. rewrite Hw. simpl.
    unfold buffer_of. by rewrite Hw.
Qed.

Lemma step_preserves pd pf ev w l o :
  l ≠ buffer_loc → heap w !! l = Some o →
  heap (step pd pf ev w) !! l = Some o.
Proof.
  intros Hl Ho. destruct ev as [now payload|now u_t u_h|now mins]; simpl.
  - by rewrite on_message_heap_other.
  - unfold simulate_tick, simulated_reading.
    by rewrite safe_append_heap_other.
  - by apply df_buf_preserves.
Qed.

Lemma run_preserves pd pf evs : ∀ w l o,
  l ≠ buffer_loc → heap w !! l = Some o →
  heap (run pd pf evs w) !! l = Some o.
Proof.
  unfold run. induction evs as [|ev evs IH]; intros w l o Hl Ho; [done|].
  simpl. apply IH; [done|]. by apply step_preserves.
Qed.

(** Every event either is a [safe_append] or leaves the deque as it is. *)
Lemma step_buffer pd pf ev w :
  buffer_of (step pd pf ev w) = buffer_of w ∨
  ∃ now t h, step pd pf ev w = snd (safe_append now t h w).
Proof.
  destruct ev as [now payload|now u_t u_h|now mins]; simpl.
  - destruct (parse_payload pd pf payload) as [[t h]|e] eqn:Hp.
    + destruct (in_range t h) eqn:Hr.
      * destruct (heap w !! buffer_loc) as [[n items| |]|] eqn:Hw.
        { right. exists now, t, h.
          by rewrite (on_message_accept _ _ _ _ _ _ _ _ _ Hw Hp Hr). }
        all: left; unfold on_message, try_except, validate_and_append;
          unfold mbind, M_bind, lift, safe_append; by rewrite Hp, Hr, Hw.
      * left. by rewrite (on_message_out_of_range _ _ _ _ _ _ _ Hp Hr).
    + left. by rewrite (on_message_parse_error _ _ _ _ _ _ Hp).
  - right. by exists now, (29 + u_t)%float, (80 + u_h)%float.
  - left. apply df_buf_buffer.
Qed.

(** The two objects a query allocates: the list copy of the deque made by
    [list(buffer)] and the frame it returns. *)
Lemma df_buf_objects w n items now mins :
  heap w !! buffer_loc = Some (ODeque n items) →
  ∃ r_rows r,
    fst (df_buf now mins w) = Ok r ∧
    r_rows ≠ buffer_loc ∧ r ≠ buffer_loc ∧ r_rows ≠ r ∧
    heap w !! r_rows = None ∧ heap w !! r = None ∧
    heap (snd (df_buf now mins w)) !! r_rows = Some (OList items) ∧
    heap (snd (df_buf now mins w)) !! r
    = Some (OFrame (window_frame now mins items)).
Proof.
  intros Hw. rewrite (df_buf_eq _ _ _ now mins Hw). cbn [fst snd heap console].
  set (l1 := fresh_loc (heap w)).
  set (h1 := <[l1 := OList items]> (heap w)).
  destruct (fresh_loc_spec (heap w)) as [Hl1 Hn1]. fold l1 in Hl1, Hn1.
  destruct (fresh_loc_spec h1) as [Hl2 Hn2].
  assert (Hne : l1 ≠ fresh_loc h1).
  { intros Heq. rewrite <- Heq in Hn2. unfold h1 in Hn2.
    by rewrite lookup_insert_eq in Hn2. }
  exists l1, (fresh_loc h1).
  split; [done|]. split; [done|]. split; [done|]. split; [done|].
  split; [done|]. split.
  { unfold h1 in Hn2. by rewrite lookup_insert_ne in Hn2. }
  split; [|apply lookup_insert_eq].
  rewrite lookup_insert_ne by congruence. unfold h1. apply lookup_insert_eq.
Qed.

(** C8. A query on a store holding [items] leaves the deque, and every
    object of the heap, as it was.  It allocates two objects at addresses
    that were free and are not the deque's: the snapshot made by
    [list(buffer)], which holds exactly [items], and the frame it returns,
    whose columns are the three of a sample and whose rows are the samples
    of [items] inside the window, in ascending order of [ts].  Whatever
    messages, simulated readings and queries follow, both objects stay as
    they are: reading the returned address back gives the same frame, so
    later appends neither change the copy nor show in it.  Appends are the
    only steps that change the deque: a query never does, and every event
    either is a [safe_append] or leaves the deque's content as it is. *)
Theorem df_buf_returns_independent_copy
    (py_decode : string → result string) (py_float : string → result float)
    (w : World) (n : nat) (items : list Sample) (now mins : Z)
    (evs : list event) :
  heap w !! buffer_loc = Some (ODeque n items) →
  ∃ r_rows r df,
    fst (df_buf now mins w) = Ok r ∧
    heap (snd (df_buf now mins w)) !! buffer_loc = Some (ODeque n items) ∧
    buffer_of (snd (df_buf now mins w)) = items ∧
    (∀ l o, heap w !! l = Some o →
            heap (snd (df_buf now mins w)) !! l = Some o) ∧
    r_rows ≠ buffer_loc ∧ r ≠ buffer_loc ∧ r_rows ≠ r ∧
    heap w !! r_rows = None ∧ heap w !! r = None ∧
    heap (snd (df_buf now mins w)) !! r_rows = Some (OList items) ∧
    heap (snd (df_buf now mins w)) !! r = Some (OFrame df) ∧
    df_columns df = sample_columns ∧
    df_rows df ≡ₚ window_filter now mins items ∧
    StronglySorted ts_le (df_rows df) ∧
    heap (run py_decode py_float evs (snd (df_buf now mins w))) !! r_rows
      = Some (OList items) ∧
    heap (run py_decode py_float evs (snd (df_buf now mins w))) !! r
      = Some (OFrame df) ∧
    fst (load_frame r (run py_decode py_float evs (snd (df_buf now mins w))))
      = Ok df ∧
    (∀ now' mins' w0,
       buffer_of (snd (df_buf now' mins' w0)) = buffer_of w0) ∧
    (∀ ev w0,
       buffer_of (step py_decode py_float ev w0) = buffer_of w0 ∨
       ∃ now' t h, step py_decode py_float ev w0
                   = snd (safe_append now' t h w0)).
Proof.
  intros Hw.
  destruct (df_buf_objects _ _ _ now mins Hw)
    as (r_rows & r & Hr & Hne1 & Hne2 & Hne & Hn1 & Hn2 & Hl & Hf).
  destruct (window_frame_rows now mins items) as [Hperm Hsort].
  pose proof (df_buf_preserves now mins w _ _ Hw) as Hb.
  pose proof (run_preserves py_decode py_float evs _ _ _ Hne2 Hf) as Hrun.
  exists r_rows, r, (window_frame now mins items).
  split; [done|]. split; [done|].
  split; [unfold buffer_of; by rewrite Hb|].
  split; [intros l o; apply df_buf_preserves|].
  do 5 (split; [done|]). split; [done|]. split; [done|].
  split; [unfold window_frame; by destruct items|].
  split; [done|]. split; [done|].
  split; [by apply run_preserves|]. split; [done|].
  split; [unfold load_frame; by rewrite Hrun|].
  split; [intros now' mins' w0; apply df_buf_buffer|].
  intros ev w0. apply step_buffer.
Qed.

Lemma df_buf_returns_independent_copy_witness :
  ∃ r df,
    fst (df_buf 9 0 (appends [(3%Z, 25%float, 55%float)] init_world)) = Ok r ∧
    heap (run ascii_decode float_of_decimal
            [EvMessage 10 "26.0,56.0"; EvSimTick 11 0.25 (-0.5)]
            (snd (df_buf 9 0 (appends [(3%Z, 25%float, 55%float)] init_world))))
      !! r = Some (OFrame df) ∧
    df_rows df ≡ₚ [mkSample 3 25 55] ∧
    buffer_of (run ascii_decode float_of_decimal
                 [EvMessage 10 "26.0,56.0"; EvSimTick 11 0.25 (-0.5)]
                 (snd (df_buf 9 0
                         (appends [(3%Z, 25%float, 55%float)] init_world))))
    = [mkSample 3 25 55; mkSample 10 26 56; mkSample 11 29.25 79.5].
Proof.
  destruct (df_buf_returns_independent_copy ascii_decode float_of_decimal
              (appends [(3%Z, 25%float, 55%float)] init_world)
              MAX_POINTS [mkSample 3 25 55] 9 0
              [EvMessage 10 "26.0,56.0"; EvSimTick 11 0.25 (-0.5)]
              eq_refl)
    as (r_rows & r & df & Hr & _ & _ & _ & _ & _ & _ & _ & _ & _ & _ & _
        & Hperm & _ & _ & Hrun & _).
  exists r, df. split; [exact Hr|]. split; [exact Hrun|].
  split; [exact Hperm|]. vm_compute. reflexivity.
Defined.

(** * The range invariant of the store *)

Lemma Forall_deque_append (P : Sample → Prop) n d x :
  Forall P d → P x → Forall P (deque_append n d x).
Proof.
  intros Hd Hx. unfold deque_append.
  assert (Hall : Forall P (d ++ [x])) by (apply Forall_app; auto).
  case_decide; [|done].
  destruct (d ++ [x]) as [|y l]; [done|]. simpl. by inversion Hall.
Qed.

Lemma safe_append_inv now t h w :
  store_inv w → in_range t h = true →
  store_inv (snd (safe_append now t h w)).
Proof.
  intros (items & Hw & Hall) Hr.
  rewrite (safe_append_deque _ _ _ _ _ _ Hw). simpl.
  exists (deque_append MAX_POINTS items (mkSample now t h)).
  split; [apply lookup_insert_eq|]. by apply Forall_deque_append.
Qed.

Lemma step_inv pd pf ev w :
  store_inv w → event_ok ev = true → store_inv (step pd pf ev w).
Proof.
  intros Hinv Hok. destruct ev as [now payload|now u_t u_h|now mins]; simpl.
  - destruct (parse_payload pd pf payload) as [[t h]|e] eqn:Hp.
    + destruct (in_range t h) eqn:Hr.
      * destruct Hinv as (items & Hw & Hall).
        rewrite (on_message_accept _ _ _ _ _ _ _ _ _ Hw Hp Hr).
        apply safe_append_inv; [by exists items|done].
      * by rewrite (on_message_out_of_range _ _ _ _ _ _ _ Hp Hr).
    + by rewrite (on_message_parse_error _ _ _ _ _ _ Hp).
  - simpl in Hok. apply andb_prop in Hok as [Ht Hh].
    unfold simulate_tick, simulated_reading.
    apply safe_append_inv; [done|]. by apply simulated_reading_in_range.
  - destruct Hinv as (items & Hw & Hall). exists items. split; [|done].
    by apply df_buf_preserves.
Qed.

Lemma run_inv pd pf evs : ∀ w,
  store_inv w → forallb event_ok evs = true → store_inv (run pd pf evs w).
Proof.
  unfold run. induction evs as [|ev evs IH]; intros w Hinv Hok; [done|].
  simpl in *. apply andb_prop in Hok as [Hev Hrest].
  apply IH; [|done]. by apply step_inv.
Qed.

(** C10. Whatever messages the live feed delivers, whatever the simulation
    loop draws within [random.uniform]'s bounds, and whatever is queried in
    between, every sample held by the store satisfies
    [-10 < temperature < 60] and [0 <= humidity <= 100]: the live path
    checks the bounds, and 29 ± 0.5 and 80 ± 0.5 lie inside them although
    [simulate] appends without the check. *)
Theorem store_samples_in_range
    (py_decode : string → result string) (py_float : string → result float)
    (evs : list event) :
  forallb event_ok evs = true →
  Forall sample_in_range (buffer_of (run py_decode py_float evs init_world)).
Proof.
  intros Hok.
  assert (Hinit : store_inv init_world).
  { exists []. split; [apply init_world_deque|constructor]. }
  destruct (run_inv py_decode py_float evs _ Hinit Hok) as (items & Hw & Hall).
  by rewrite (buffer_of_deque _ _ _ Hw).
Qed.

Lemma store_samples_in_range_witness :
  Forall sample_in_range
    (buffer_of (run ascii_decode float_of_decimal
                  [EvMessage 1 "25.0,55.0"; EvSimTick 2 0.25 (-0.5);
                   EvQuery 3 5; EvMessage 4 "100.0,55.0"]
                  init_world)).
Proof.
  apply (store_samples_in_range ascii_decode float_of_decimal
           [EvMessage 1 "25.0,55.0"; EvSimTick 2 0.25 (-0.5);
            EvQuery 3 5; EvMessage 4 "100.0,55.0"]).
  reflexivity.
Defined.

(** * The polling callback *)

Section DashboardFacts.
Context {Figure : Type}.
Variable blank_figure : Z → Figure.
Variable no_data_figure : string → Figure.
Variable indicator_figure :
  float → string → string → float * float → list float → result Figure.
Variable scatter_figure :
  list Z → list float → string → string → string → float → float * float →
  result Figure.
Variable heatmap_figure : list (list float) → result Figure.
Variable py_round : float → Z → float.
Variable series_min : list float → float.
Variable series_max : list float → float.
Variable series_mean : list float → float.
Variable format_stats :
  nat → float → float → float → float → float → float → string.
Variable format_exc : exn → string.

Local Abbreviation upd_body :=
  (update_body Figure blank_figure no_data_figure indicator_figure
     scatter_figure heatmap_figure py_round series_min series_max series_mean format_stats).
Local Abbreviation upd :=
  (update Figure blank_figure no_data_figure indicator_figure
     scatter_figure heatmap_figure py_round series_min series_max series_mean format_stats
     format_exc).
Local Abbreviation guard := (polling_boundary Figure blank_figure format_exc).
Local Abbreviation placeholder := (error_output Figure blank_figure).

Lemma lift_bind_world {A B} (r : result A) (k : A → M B) (w : World) :
  (∀ a w0, snd (k a w0) = w0) → snd ((lift r ≫= k) w) = w.
Proof.
  intros Hk. unfold mbind, M_bind, lift. destruct r as [a|e]; [|done].
  apply Hk.
Qed.

(** The [try] block changes the world only through its query. *)
Lemma update_body_world now w :
  snd (upd_body now w) = snd (df_buf now 5 w).
Proof.
  unfold update_body. unfold mbind at 1. unfold M_bind at 1.
  destruct (df_buf now 5 w) as [[r|e] w1]; [|done]. simpl.
  unfold mbind at 1. unfold M_bind at 1. unfold load_frame.
  destruct (heap w1 !! r) as [[| |df]|]; try done.
  apply lift_bind_world. intros waiting w0.
  destruct waiting; [done|].
  repeat (apply lift_bind_world; intros ? ?). done.
Qed.

Lemma guard_raise (body : M (Output Figure)) w e w1 :
  body w = (Raise e, w1) →
  guard body w
  = (Ok (placeholder e),
     mkWorld (heap w1)
       (console w1 ++ [" Callback error in update(): " +:+ exn_str e]
                   ++ [format_exc e])).
Proof.
  intros Hb. unfold polling_boundary, try_except. rewrite Hb.
  unfold update_handler, mbind, M_bind, print. simpl.
  by rewrite <- app_assoc.
Qed.

Lemma guard_ok (body : M (Output Figure)) w out w1 :
  body w = (Ok out, w1) → guard body w = (Ok out, w1).
Proof. intros Hb. unfold polling_boundary, try_except. by rewrite Hb. Qed.

Lemma update_heap now w :
  heap (snd (upd now w)) = heap (snd (df_buf now 5 w)).
Proof.
  unfold update. rewrite <- update_body_world.
  destruct (upd_body now w) as [[out|e] w1] eqn:Hb.
  - by rewrite (guard_ok _ _ _ _ Hb).
  - by rewrite (guard_raise _ _ _ _ Hb).
Qed.

End DashboardFacts.

(** * Further properties of the ingestion path *)

(** X1. On a world that holds the deque, the simulation loop never raises
    and appends one reading per iteration, in order: its final world is
    that of the corresponding run of [safe_append] calls. *)
Theorem simulate_appends_each_tick (ticks : list (Z * float * float))
    (w : World) (n : nat) (items : list Sample) :
  heap w !! buffer_loc = Some (ODeque n items) →
  simulate ticks w = (Ok tt, appends (simulated_inputs ticks) w) ∧
  buffer_of (snd (simulate ticks w))
  = foldl (deque_append n) items (sample_of <$> simulated_inputs ticks).
Proof.
  intros Hw.
  assert (Hrun : simulate ticks w = (Ok tt, appends (simulated_inputs ticks) w)).
  { revert w items Hw. unfold appends, simulated_inputs.
    induction ticks as [|[[now u_t] u_h] ticks IH]; intros w items Hw; [done|].
    cbn [simulate]. unfold mbind, M_bind, simulate_tick, simulated_reading.
    rewrite (safe_append_deque _ _ _ _ _ _ Hw). csimpl.
    rewrite (safe_append_deque _ _ _ _ _ _ Hw). cbn [snd].
    eapply IH. cbn [heap]. apply lookup_insert_eq. }
  split; [done|]. rewrite Hrun. cbn [snd].
  apply buffer_of_deque with n. by apply appends_deque.
Qed.

Lemma simulate_appends_each_tick_witness :
  buffer_of (snd (simulate [(1%Z, 0.25%float, 0%float); (2%Z, 0%float, 0.5%float)] init_world))
  = [mkSample 1 29.25 80; mkSample 2 29 80.5].
Proof.
  exact (proj2 (simulate_appends_each_tick
                  [(1%Z, 0.25%float, 0%float); (2%Z, 0%float, 0.5%float)]
                  init_world MAX_POINTS [] init_world_deque)).
Defined.

Lemma str_split_no_sep (sep : ascii) (s : string) :
  Forall (λ c, c ≠ sep) (String.list_ascii_of_string s) →
  str_split sep s = [s].
Proof.
  induction s as [|c s IH]; [done|]. simpl.
  intros Hall. inversion Hall as [|? ? Hc Hs]; subst.
  rewrite IH by done. apply Ascii.eqb_neq in Hc. by rewrite Hc.
Qed.

(** X2. A payload whose text holds no comma has a single field: whether or
    not that field converts to a float, the message is dropped, the heap
    stays as it is and exactly one line is written to the console. *)
Theorem on_message_single_field_rejected
    (py_decode : string → result string) (py_float : string → result float)
    (now : Z) (payload text : string) (w : World) :
  py_decode payload = Ok text →
  Forall (λ c, c ≠ ","%char) (String.list_ascii_of_string text) →
  ∃ line,
    on_message py_decode py_float now payload w
    = (Ok tt, mkWorld (heap w) (console w ++ [line])) ∧
    (∀ x, py_float text = Ok x →
          line = "⚠️ Parse error: "
                 +:+ "not enough values to unpack (expected 2, got 1)").
Proof.
  intros Hd Hno.
  assert (Hp : ∃ e, parse_payload py_decode py_float payload = Raise e ∧
                    (∀ x, py_float text = Ok x →
                          e = ValueError
                                "not enough values to unpack (expected 2, got 1)")).
  { unfold parse_payload, unpack_two_floats. rewrite Hd. simpl.
    rewrite (str_split_no_sep _ _ Hno). simpl.
    destruct (py_float text) as [x|e]; simpl.
    - eexists. split; [done|]. done.
    - exists e. split; [done|]. done. }
  destruct Hp as (e & Hp & He).
  exists ("⚠️ Parse error: " +:+ exn_str e).
  split; [by apply on_message_parse_error|].
  intros x Hx. by rewrite (He x Hx).
Qed.

Lemma on_message_single_field_rejected_witness :
  ∃ line,
    on_message ascii_decode float_of_decimal 3 "25.0" init_world
    = (Ok tt, mkWorld (heap init_world) (console init_world ++ [line])) ∧
    (∀ x, float_of_decimal "25.0" = Ok x →
          line = "⚠️ Parse error: "
                 +:+ "not enough values to unpack (expected 2, got 1)").
Proof.
  apply (on_message_single_field_rejected ascii_decode float_of_decimal
           3 "25.0" "25.0" init_world).
  - reflexivity.
  - repeat constructor; discriminate.
Defined.

(** X3. The two rejections differ in what they log: a reading that parses
    but lies outside the bounds is dropped without any trace (the world,
    console included, is unchanged), while a payload that fails to parse
    leaves the heap unchanged and adds exactly the line
    ["⚠️ Parse error: " + str(e)] to the console. *)
Theorem on_message_rejections_logging
    (py_decode : string → result string) (py_float : string → result float)
    (now : Z) (payload : string) (w : World) :
  (∀ t h, parse_payload py_decode py_float payload = Ok (t, h) →
          in_range t h = false →
          on_message py_decode py_float now payload w = (Ok tt, w)) ∧
  (∀ e, parse_payload py_decode py_float payload = Raise e →
        on_message py_decode py_float now payload w
        = (Ok tt,
           mkWorld (heap w) (console w ++ ["⚠️ Parse error: " +:+ exn_str e]))).
Proof.
  split.
  - intros t h Hp Hr. by apply on_message_out_of_range with t h.
  - intros e Hp. by apply on_message_parse_error.
Qed.

Lemma SFcompare_refl x : sf_finite x → SFcompare x x = Some Eq.
Proof.
  destruct x as [s|s| |s m e]; simpl; try done. intros _.
  rewrite Z.compare_refl, Pos.compare_cont_refl. by destruct s.
Qed.

Lemma is_finite_spec t : sf_finite (Prim2SF t) → PrimFloat.is_finite t = true.
Proof.
  intros Hf. unfold PrimFloat.is_finite, PrimFloat.is_nan, PrimFloat.is_infinity.
  rewrite !FloatAxioms.eqb_spec, FloatAxioms.abs_spec.
  assert (Hinf : Prim2SF infinity = S754_infinity false)
    by (vm_compute; reflexivity).
  rewrite Hinf. unfold SFeqb at 1. rewrite (SFcompare_refl _ Hf).
  by destruct (Prim2SF t) as [s|s| |s m e].
Qed.

Lemma sf_finite_between a x b :
  sf_finite a → sf_finite b →
  SFltb a x = true ∨ SFleb a x = true →
  SFltb x b = true ∨ SFleb x b = true →
  sf_finite x.
Proof.
  unfold SFltb, SFleb.
  destruct x as [s|s| |s m e]; [done| | |done].
  - destruct a as [sa|sa| |sa ma ea], b as [sb|sb| |sb mb eb], s;
      simpl; try done; intros _ _ [|] [|]; done.
  - destruct a as [sa|sa| |sa ma ea]; simpl; try done; intros _ _ [|]; done.
Qed.

Lemma in_range_finite t h :
  in_range t h = true →
  PrimFloat.is_finite t = true ∧ PrimFloat.is_finite h = true.
Proof.
  intros (H1 & H2 & H3 & H4)%in_range_true.
  rewrite FloatAxioms.ltb_spec in H1, H2.
  rewrite FloatAxioms.leb_spec in H3, H4.
  assert (C10 : Prim2SF (-10) = S754_finite true 5629499534213120 (-49))
    by (vm_compute; reflexivity).
  assert (C60 : Prim2SF 60 = S754_finite false 8444249301319680 (-47))
    by (vm_compute; reflexivity).
  assert (C0 : Prim2SF 0 = S754_zero false) by (vm_compute; reflexivity).
  assert (C100 : Prim2SF 100 = S754_finite false 7036874417766400 (-46))
    by (vm_compute; reflexivity).
  rewrite C10 in H1. rewrite C60 in H2. rewrite C0 in H3. rewrite C100 in H4.
  split; apply is_finite_spec.
  - eapply sf_finite_between; [| |left; exact H1|left; exact H2]; done.
  - eapply sf_finite_between; [| |right; exact H3|right; exact H4]; done.
Qed.

(** X4. Only finite readings pass the range check: a message whose first
    two fields convert to floats of which one is NaN or infinite
    ([float("nan")], [float("inf")] are valid conversions) is dropped
    silently, leaving the world unchanged. *)
Theorem on_message_rejects_non_finite
    (py_decode : string → result string) (py_float : string → result float)
    (now : Z) (payload : string) (t h : float) (w : World) :
  parse_payload py_decode py_float payload = Ok (t, h) →
  PrimFloat.is_finite t && PrimFloat.is_finite h = false →
  in_range t h = false ∧
  on_message py_decode py_float now payload w = (Ok tt, w).
Proof.
  intros Hp Hnf.
  assert (Hr : in_range t h = false).
  { destruct (in_range t h) eqn:Hr; [|done].
    apply in_range_finite in Hr as [Ht Hh]. by rewrite Ht, Hh in Hnf. }
  split; [done|]. by apply on_message_out_of_range with t h.
Qed.

Lemma on_message_rejects_non_finite_witness :
  in_range nan 50 = false ∧
  on_message (λ s, Ok s) (λ s, if String.eqb s "nan" then Ok nan else Ok 50%float)
    8 "nan,50" init_world
  = (Ok tt, init_world).
Proof.
  apply (on_message_rejects_non_finite (λ s, Ok s)
           (λ s, if String.eqb s "nan" then Ok nan else Ok 50%float)
           8 "nan,50" nan 50 init_world); reflexivity.
Defined.

Lemma str_split_nonempty sep s : str_split sep s ≠ [].
Proof.
  destruct s as [|c s]; simpl; [done|].
  destruct (Ascii.eqb c sep); [done|]. by destruct (str_split sep s).
Qed.

Lemma str_split_app sep a b :
  str_split sep (a +:+ String sep b) = str_split sep a ++ str_split sep b.
Proof.
  induction a as [|c a IH]; simpl.
  - by rewrite Ascii.eqb_refl.
  - rewrite IH. destruct (Ascii.eqb c sep); [done|].
    pose proof (str_split_nonempty sep a) as Hne.
    by destruct (str_split sep a).
Qed.

(** X5. Fields after the second are ignored: when the text of a message
    already has two fields, appending a comma and anything else to it does
    not change what [on_message] does. *)
Theorem on_message_ignores_extra_fields
    (py_decode : string → result string) (py_float : string → result float)
    (now : Z) (p1 p2 text extra : string) (w : World) :
  py_decode p1 = Ok text →
  py_decode p2 = Ok (text +:+ "," +:+ extra) →
  2 ≤ length (str_split "," text) →
  on_message py_decode py_float now p2 w
  = on_message py_decode py_float now p1 w.
Proof.
  intros H1 H2 Hlen.
  assert (Hp : parse_payload py_decode py_float p2
               = parse_payload py_decode py_float p1).
  { unfold parse_payload. rewrite H1, H2. simpl.
    change ("," +:+ extra) with (String "," extra).
    rewrite str_split_app, take_app_le by done. done. }
  unfold on_message. by rewrite Hp.
Qed.

Lemma on_message_ignores_extra_fields_witness :
  on_message ascii_decode float_of_decimal 5 "25.0,55.0,junk,7" init_world
  = on_message ascii_decode float_of_decimal 5 "25.0,55.0" init_world.
Proof.
  apply (on_message_ignores_extra_fields ascii_decode float_of_decimal 5
           "25.0,55.0" "25.0,55.0,junk,7" "25.0,55.0" "junk,7" init_world);
    [reflexivity|reflexivity|vm_compute; lia].
Defined.

(** * Further properties of the window query *)

(** X6. A window that is not positive is "all data": with [mins <= 0] the
    clock is not consulted, and [df_buf] does exactly what it does for
    [mins = 0]. *)
Theorem df_buf_nonpositive_window (now now' mins : Z) (w : World) :
  (mins ≤ 0)%Z → df_buf now mins w = df_buf now' 0 w.
Proof.
  intros Hm.
  destruct (heap w !! buffer_loc) as [[n items| |]|] eqn:Hw.
  - rewrite (df_buf_eq _ _ _ now mins Hw), (df_buf_eq _ _ _ now' 0%Z Hw).
    unfold window_frame, window_filter.
    rewrite decide_False by lia. by rewrite decide_False by lia.
  - unfold df_buf, snapshot, mbind, M_bind. by rewrite Hw.
  - unfold df_buf, snapshot, mbind, M_bind. by rewrite Hw.
  - unfold df_buf, snapshot, mbind, M_bind. by rewrite Hw.
Qed.

Lemma df_buf_nonpositive_window_witness :
  df_buf 100 (-3) init_world = df_buf 7 0 init_world.
Proof.
  apply (df_buf_nonpositive_window 100 7 (-3) init_world). lia.
Defined.

(** X7. Windows are nested: the rows returned for a window of [m1] minutes
    are, with multiplicity, among the rows returned for any wider window
    [m2 >= m1], which in turn are among the samples held. *)
Theorem df_buf_window_monotone (w : World) (n : nat) (items : list Sample)
    (now m1 m2 : Z) :
  heap w !! buffer_loc = Some (ODeque n items) →
  (0 < m1 ≤ m2)%Z →
  ∃ r1 r2 df1 df2,
    fst (df_buf now m1 w) = Ok r1 ∧
    heap (snd (df_buf now m1 w)) !! r1 = Some (OFrame df1) ∧
    fst (df_buf now m2 w) = Ok r2 ∧
    heap (snd (df_buf now m2 w)) !! r2 = Some (OFrame df2) ∧
    df_rows df1 ⊆+ df_rows df2 ∧ df_rows df2 ⊆+ items.
Proof.
  intros Hw [Hm1 Hm2].
  destruct (df_buf_result _ _ _ now m1 Hw) as (r1 & Hr1 & _ & _ & Hf1 & _).
  destruct (df_buf_result _ _ _ now m2 Hw) as (r2 & Hr2 & _ & _ & Hf2 & _).
  destruct (window_frame_rows now m1 items) as [Hp1 _].
  destruct (window_frame_rows now m2 items) as [Hp2 _].
  unfold window_filter in Hp1, Hp2.
  rewrite decide_True in Hp1 by lia. rewrite decide_True in Hp2 by lia.
  exists r1, r2, (window_frame now m1 items), (window_frame now m2 items).
  split; [done|]. split; [done|]. split; [done|]. split; [done|].
  rewrite Hp1, Hp2. split.
  - rewrite <- (list_filter_filter_l
                  (λ s, (now - timedelta_minutes m1 < ts s)%Z)
                  (λ s, (now - timedelta_minutes m2 < ts s)%Z)).
    + apply sublist_submseteq, sublist_filter.
    + intros s. unfold timedelta_minutes. lia.
  - apply sublist_submseteq, sublist_filter.
Qed.

Lemma df_buf_window_monotone_witness :
  ∃ r1 r2 df1 df2,
    fst (df_buf 400000000 1 (appends [(60000000%Z, 25%float, 55%float)] init_world)) = Ok r1 ∧
    heap (snd (df_buf 400000000 1 (appends [(60000000%Z, 25%float, 55%float)] init_world))) !! r1
      = Some (OFrame df1) ∧
    fst (df_buf 400000000 15 (appends [(60000000%Z, 25%float, 55%float)] init_world)) = Ok r2 ∧
    heap (snd (df_buf 400000000 15 (appends [(60000000%Z, 25%float, 55%float)] init_world))) !! r2
      = Some (OFrame df2) ∧
    df_rows df1 ⊆+ df_rows df2 ∧ df_rows df2 ⊆+ [mkSample 60000000 25 55].
Proof.
  apply (df_buf_window_monotone
           (appends [(60000000%Z, 25%float, 55%float)] init_world)
           MAX_POINTS [mkSample 60000000 25 55] 400000000 1 15);
    [reflexivity|lia].
Defined.

Lemma StronglySorted_last {A} (R : relation A) (l : list A) (s : A) :
  StronglySorted R l → last l = Some s → ∀ x, x ∈ l → x = s ∨ R x s.
Proof.
  induction 1 as [|y l Hl IH Hy]; [done|].
  destruct l as [|z l].
  - simpl. intros [= ->] x ->%list_elem_of_singleton. by left.
  - intros Hlast x [->|Hx]%elem_of_cons.
    + right. eapply Forall_forall; [exact Hy|].
      change (last (y :: z :: l)) with (last (z :: l)) in Hlast.
      by apply last_Some_elem_of.
    + apply IH; [exact Hlast|done].
Qed.

(** X8. The "latest value" read by [update] with [iloc[-1]] is the reading
    of a most recent sample: in the frame returned by [df_buf], the last
    row is one of the held samples and no row has a later timestamp. *)
Theorem df_buf_last_row_is_latest (w : World) (n : nat)
    (items : list Sample) (now mins : Z) :
  heap w !! buffer_loc = Some (ODeque n items) →
  ∃ r df,
    fst (df_buf now mins w) = Ok r ∧
    heap (snd (df_buf now mins w)) !! r = Some (OFrame df) ∧
    (df_rows df = [] →
     ∃ e, iloc_last (temperature <$> df_rows df) = Raise e) ∧
    (∀ s, last (df_rows df) = Some s →
          iloc_last (temperature <$> df_rows df) = Ok (temperature s) ∧
          iloc_last (humidity <$> df_rows df) = Ok (humidity s) ∧
          s ∈ items ∧
          ∀ s', s' ∈ df_rows df → (ts s' ≤ ts s)%Z).
Proof.
  intros Hw.
  destruct (df_buf_result _ _ _ now mins Hw) as (r & Hr & _ & _ & Hf & _).
  destruct (window_frame_rows now mins items) as [Hperm Hsort].
  exists r, (window_frame now mins items).
  split; [done|]. split; [done|]. split.
  { intros ->. by eexists. }
  intros s Hlast. unfold iloc_last. rewrite !fmap_last, Hlast. simpl.
  split; [done|]. split; [done|]. split.
  - apply last_Some_elem_of in Hlast. rewrite Hperm in Hlast.
    unfold window_filter in Hlast. case_decide; [|done].
    by apply list_elem_of_filter in Hlast as [_ ?].
  - intros s' Hs'.
    destruct (StronglySorted_last _ _ _ Hsort Hlast s' Hs') as [->|Hle];
      [lia|exact Hle].
Qed.

Lemma df_buf_last_row_is_latest_witness :
  ∃ r df,
    fst (df_buf 9 0 (appends [(7%Z, 25%float, 55%float); (3%Z, 26%float, 50%float)] init_world)) = Ok r ∧
    heap (snd (df_buf 9 0 (appends [(7%Z, 25%float, 55%float); (3%Z, 26%float, 50%float)] init_world))) !! r
      = Some (OFrame df) ∧
    (df_rows df = [] →
     ∃ e, iloc_last (temperature <$> df_rows df) = Raise e) ∧
    (∀ s, last (df_rows df) = Some s →
          iloc_last (temperature <$> df_rows df) = Ok (temperature s) ∧
          iloc_last (humidity <$> df_rows df) = Ok (humidity s) ∧
          s ∈ [mkSample 7 25 55; mkSample 3 26 50] ∧
          ∀ s', s' ∈ df_rows df → (ts s' ≤ ts s)%Z).
Proof.
  apply (df_buf_last_row_is_latest
           (appends [(7%Z, 25%float, 55%float); (3%Z, 26%float, 50%float)] init_world)
           MAX_POINTS [mkSample 7 25 55; mkSample 3 26 50] 9 0).
  reflexivity.
Defined.

Lemma StronglySorted_weaken {A} (R R' : relation A) (l : list A) :
  (∀ x y, R x y → R' x y) → StronglySorted R l → StronglySorted R' l.
Proof.
  intros HR. induction 1 as [|y l Hl IH Hy]; constructor; [done|].
  eapply Forall_impl; [exact Hy|]. intros x. apply HR.
Qed.

Lemma StronglySorted_filter_keep {A} (R : relation A) (P : A → Prop)
    `{∀ x, Decision (P x)} (l : list A) :
  StronglySorted R l → StronglySorted R (filter P l).
Proof.
  induction 1 as [|y l Hl IH Hy]; [constructor|].
  rewrite filter_cons. case_decide; [|done]. constructor; [done|].
  apply Forall_forall. intros x [_ Hx]%list_elem_of_filter.
  eapply Forall_forall; [exact Hy|done].
Qed.

Lemma ts_lt_sorted_inj (l : list Sample) :
  StronglySorted ts_lt l →
  ∀ x y, x ∈ l → y ∈ l → ts x = ts y → x = y.
Proof.
  induction 1 as [|z l Hl IH Hz]; intros x y Hx Hy Heq.
  - by apply elem_of_nil in Hx.
  - apply elem_of_cons in Hx as [->|Hx]; apply elem_of_cons in Hy as [->|Hy].
    + done.
    + exfalso. pose proof (proj1 (Forall_forall _ _) Hz y Hy) as Hlt.
      unfold ts_lt in Hlt. lia.
    + exfalso. pose proof (proj1 (Forall_forall _ _) Hz x Hx) as Hlt.
      unfold ts_lt in Hlt. lia.
    + by apply IH.
Qed.

(** X9. When the clock read by [safe_append] increased strictly from one
    held sample to the next, sorting changes nothing: [df_buf] returns the
    samples of the window in the order in which they were appended. *)
Theorem df_buf_keeps_arrival_order (w : World) (n : nat)
    (items : list Sample) (now mins : Z) :
  heap w !! buffer_loc = Some (ODeque n items) →
  StronglySorted ts_lt items →
  ∃ r df,
    fst (df_buf now mins w) = Ok r ∧
    heap (snd (df_buf now mins w)) !! r = Some (OFrame df) ∧
    df_rows df = window_filter now mins items.
Proof.
  intros Hw Hinc.
  destruct (df_buf_result _ _ _ now mins Hw) as (r & Hr & _ & _ & Hf & _).
  destruct (window_frame_rows now mins items) as [Hperm Hsort].
  exists r, (window_frame now mins items).
  split; [done|]. split; [done|].
  assert (Hsub : ∀ x, x ∈ window_filter now mins items → x ∈ items).
  { intros x. unfold window_filter. case_decide; [|done].
    by intros [_ ?]%list_elem_of_filter. }
  assert (Hwin : StronglySorted ts_lt (window_filter now mins items)).
  { unfold window_filter. case_decide; [|done].
    by apply StronglySorted_filter_keep. }
  apply (StronglySorted_unique_strong ts_le); [|done| |done].
  - intros x1 x2 Hx1 Hx2 H12 H21. rewrite Hperm in Hx1.
    apply (ts_lt_sorted_inj items Hinc); [by apply Hsub|by apply Hsub|].
    unfold ts_le in *. lia.
  - eapply StronglySorted_weaken; [|exact Hwin].
    intros x y. unfold ts_lt, ts_le. lia.
Qed.

Lemma df_buf_keeps_arrival_order_witness :
  ∃ r df,
    fst (df_buf 9 0 (appends [(3%Z, 26%float, 50%float); (7%Z, 25%float, 55%float)] init_world)) = Ok r ∧
    heap (snd (df_buf 9 0 (appends [(3%Z, 26%float, 50%float); (7%Z, 25%float, 55%float)] init_world))) !! r
      = Some (OFrame df) ∧
    df_rows df = [mkSample 3 26 50; mkSample 7 25 55].
Proof.
  apply (df_buf_keeps_arrival_order
           (appends [(3%Z, 26%float, 50%float); (7%Z, 25%float, 55%float)] init_world)
           MAX_POINTS [mkSample 3 26 50; mkSample 7 25 55] 9 0).
  - reflexivity.
  - repeat constructor.
Defined.

(** * Further properties of the polling callback and its helpers *)

Section DashboardMore.
Context {Figure : Type}.
Variable blank_figure : Z → Figure.
Variable no_data_figure : string → Figure.
Variable indicator_figure :
  float → string → string → float * float → list float → result Figure.
Variable scatter_figure :
  list Z → list float → string → string → string → float → float * float →
  result Figure.
Variable heatmap_figure : list (list float) → result Figure.
Variable py_round : float → Z → float.
Variable series_min : list float → float.
Variable series_max : list float → float.
Variable series_mean : list float → float.
Variable format_stats :
  nat → float → float → float → float → float → float → string.
Variable format_exc : exn → string.

Local Abbreviation upd_body' hm :=
  (update_body Figure blank_figure no_data_figure indicator_figure
     scatter_figure hm py_round series_min series_max series_mean format_stats).
Local Abbreviation upd' hm :=
  (update Figure blank_figure no_data_figure indicator_figure
     scatter_figure hm py_round series_min series_max series_mean format_stats format_exc).
Local Abbreviation gauge' := (gauge Figure indicator_figure py_round).
Local Abbreviation line_fig' :=
  (line_fig Figure no_data_figure scatter_figure series_min series_max).
Local Abbreviation render' hm :=
  (render Figure blank_figure no_data_figure indicator_figure scatter_figure
     hm py_round series_min series_max series_mean format_stats).

Lemma lift_bind_pure {A B} (r : result A) (k : A → M B)
    (kr : A → result B) (w : World) :
  (∀ a, k a w = (kr a, w)) → (lift r ≫= k) w = (r ≫= kr, w).
Proof.
  intros Hk. unfold mbind, M_bind, result_bind, lift.
  destruct r as [a|e]; [apply Hk|done].
Qed.

Lemma update_body_render hm now w n items :
  heap w !! buffer_loc = Some (ODeque n items) →
  upd_body' hm now w
  = (render' hm (window_frame now 5 items), snd (df_buf now 5 w)).
Proof.
  intros Hw. unfold update_body. unfold mbind at 1. unfold M_bind at 1.
  rewrite (df_buf_eq _ _ _ now 5%Z Hw). cbn [snd].
  unfold mbind at 1. unfold M_bind at 1. unfold load_frame. cbn [heap].
  rewrite lookup_insert_eq. set (df := window_frame now 5 items).
  match goal with |- _ = (_, ?w1) => set (w' := w1) end.
  unfold render.
  apply lift_bind_pure. intros [|]; [done|].
  repeat (apply lift_bind_pure; intros ?). done.
Qed.

Lemma update_result hm now w n items :
  heap w !! buffer_loc = Some (ODeque n items) →
  fst (upd' hm now w)
  = match render' hm (window_frame now 5 items) with
    | Ok out => Ok out
    | Raise e => Ok (error_output Figure blank_figure e)
    end.
Proof.
  intros Hw. unfold update, polling_boundary, try_except.
  rewrite (update_body_render _ _ _ _ _ Hw).
  by destruct (render' hm (window_frame now 5 items)).
Qed.

Lemma window_frame_eq now mins items :
  (0 < mins)%Z →
  window_frame now mins items
  = mkFrame sample_columns (merge_sort ts_le (window_filter now mins items)).
Proof.
  intros Hm. destruct items as [|s items]; [|done].
  unfold window_frame, window_filter. by rewrite decide_True.
Qed.

Lemma result_bind_ext {A B} (r : result A) (k1 k2 : A → result B) :
  (∀ a, k1 a = k2 a) → r ≫= k1 = r ≫= k2.
Proof. intros Hk. destruct r; [apply Hk|done]. Qed.

(** X10. While the store holds no sample of the last five minutes (in
    particular while it is empty), [update] returns four blank figures and
    the text "Waiting for valid data...", whatever the plotting library
    would do: none of its constructors is reached. *)
Theorem update_waits_without_recent_data (now : Z) (w : World) (n : nat)
    (items : list Sample) :
  heap w !! buffer_loc = Some (ODeque n items) →
  Forall (λ s, (ts s ≤ now - timedelta_minutes 5)%Z) items →
  fst (upd' heatmap_figure now w)
  = Ok (blank_figure 300, blank_figure 300, blank_figure 300,
        blank_figure 300, "Waiting for valid data...").
Proof.
  intros Hw Hold. rewrite (update_result _ _ _ _ _ Hw).
  rewrite window_frame_eq by lia. unfold window_filter.
  rewrite decide_True by lia. by rewrite filter_window_none.
Qed.

(** X11. [update] always looks at the last five minutes and at nothing
    else: two stores whose samples newer than [now - 5 min] are the same,
    in the same order, give the same output, whatever older samples they
    hold besides. *)
Theorem update_depends_on_last_five_minutes (now : Z) (w1 w2 : World)
    (n1 n2 : nat) (items1 items2 : list Sample) :
  heap w1 !! buffer_loc = Some (ODeque n1 items1) →
  heap w2 !! buffer_loc = Some (ODeque n2 items2) →
  filter (λ s, (now - timedelta_minutes 5 < ts s)%Z) items1
  = filter (λ s, (now - timedelta_minutes 5 < ts s)%Z) items2 →
  fst (upd' heatmap_figure now w1) = fst (upd' heatmap_figure now w2).
Proof.
  intros Hw1 Hw2 Heq.
  rewrite (update_result _ _ _ _ _ Hw1), (update_result _ _ _ _ _ Hw2).
  rewrite !window_frame_eq by lia. unfold window_filter.
  rewrite !decide_True by lia. by rewrite Heq.
Qed.

(** X12. The correlation heat map is built but never returned: replacing
    the heat-map constructor by any other that succeeds and fails on the
    same matrices (with the same exception) leaves the output of [update]
    unchanged. *)
Theorem update_output_ignores_heatmap
    (hm1 hm2 : list (list float) → result Figure) (now : Z) (w : World)
    (n : nat) (items : list Sample) :
  heap w !! buffer_loc = Some (ODeque n items) →
  (∀ c, match hm1 c, hm2 c with
        | Ok _, Ok _ => True
        | Raise e1, Raise e2 => e1 = e2
        | _, _ => False
        end) →
  fst (upd' hm1 now w) = fst (upd' hm2 now w).
Proof.
  intros Hw Hhm.
  rewrite (update_result _ _ _ _ _ Hw), (update_result _ _ _ _ _ Hw).
  assert (Hr : render' hm1 (window_frame now 5 items)
               = render' hm2 (window_frame now 5 items)); [|by rewrite Hr].
  unfold render. apply result_bind_ext. intros [|]; [done|].
  repeat (apply result_bind_ext; intros ?).
  match goal with
  | |- hm1 ?c ≫= _ = _ =>
      specialize (Hhm c); destruct (hm1 c), (hm2 c); simpl; try done
  end.
  by subst.
Qed.

(** X13. Whatever value and bounds [gauge] is given, the indicator it
    builds gets a value that is not NaN (zero stands in for NaN), the axis
    range of [safe_range(lo, hi, 0.1)] and exactly six ticks. *)
Theorem gauge_indicator_arguments (val lo hi : float) (title color : string) :
  ∃ v ticks,
    gauge' val lo hi title color
    = indicator_figure v title color (safe_range lo hi 0.1) ticks ∧
    PrimFloat.is_nan v = false ∧
    v = (if PrimFloat.is_nan val then 0%float else val) ∧
    length ticks = 6.
Proof.
  unfold gauge. destruct (safe_range lo hi 0.1) as [lo' hi'].
  eexists _, _. split; [reflexivity|]. split; [|split; [reflexivity|done]].
  by destruct (PrimFloat.is_nan val) eqn:Hn.
Qed.

(** X14. [line_fig] falls back to its "(No data yet)" figure, without
    calling the plotting library, whenever the frame has no rows, lacks the
    requested column, or holds only NaN in it. *)
Theorem line_fig_no_data (df : DataFrame) (y : metric) (title clr : string)
    (step : float) (y_label : string) :
  df_rows df = [] ∨ metric_name y ∉ df_columns df ∨
  Forall (λ x, PrimFloat.is_nan x = true) (metric_value y <$> df_rows df) →
  line_fig' df y title clr step y_label = Ok (no_data_figure title).
Proof.
  intros Hcase. unfold line_fig.
  destruct (df_is_empty df) eqn:He; [done|]. simpl.
  destruct (decide (metric_name y ∈ df_columns df)) as [Hin|Hnin].
  - rewrite bool_decide_true by done. simpl.
    unfold getitem. rewrite decide_True by done. simpl.
    destruct Hcase as [Hrows|[Hno|Hnan]].
    + unfold df_is_empty in He. by rewrite Hrows in He.
    + done.
    + assert (Hd : dropna (metric_value y <$> df_rows df) = []).
      { unfold dropna. induction Hnan as [|x l Hx Hl IH]; [done|].
        rewrite filter_cons, decide_False; [done|]. by rewrite Hx. }
      by rewrite Hd.
  - by rewrite bool_decide_false.
Qed.

Lemma positive_truthy (step : float) :
  PrimFloat.ltb 0 step = true → float_truthy step = true.
Proof.
  unfold float_truthy. rewrite FloatAxioms.ltb_spec, FloatAxioms.eqb_spec.
  assert (C0 : Prim2SF 0 = S754_zero false) by (vm_compute; reflexivity).
  rewrite C0. unfold SFltb, SFeqb.
  by destruct (Prim2SF step) as [s|[|]| |[|] m e].
Qed.

(** X15. On a frame with rows, the requested column, a [ts] column and at
    least one value that is not NaN, and with a positive [step] (as in both
    calls of [update]), [line_fig] is the scatter figure of the [ts] and
    value columns whose tick distance is [step] and whose axis range is
    [safe_range(min - step, max + step)]. *)
Theorem line_fig_positive_step (df : DataFrame) (y : metric)
    (title clr : string) (step : float) (y_label : string) :
  df_rows df ≠ [] → metric_name y ∈ df_columns df → "ts" ∈ df_columns df →
  dropna (metric_value y <$> df_rows df) ≠ [] →
  PrimFloat.ltb 0 step = true →
  line_fig' df y title clr step y_label
  = scatter_figure (ts <$> df_rows df) (metric_value y <$> df_rows df)
      title clr y_label step
      (safe_range (series_min (metric_value y <$> df_rows df) - step)
                  (series_max (metric_value y <$> df_rows df) + step) 0.1).
Proof.
  intros Hrows Hy Hts Hdata Hstep. unfold line_fig.
  assert (He : df_is_empty df = false).
  { unfold df_is_empty. destruct (df_rows df); [done|].
    destruct (df_columns df); [|done]. by apply elem_of_nil in Hy. }
  rewrite He, bool_decide_true by done. simpl.
  unfold getitem_ts, getitem. rewrite !decide_True by done. simpl.
  destruct (dropna (metric_value y <$> df_rows df)) eqn:Hd; [done|]. simpl.
  rewrite (positive_truthy _ Hstep), Hstep. simpl.
  by destruct (safe_range _ _ _).
Qed.






(** C9. Whatever raises inside the [try] block of [update], the exception
    stops at the callback's boundary.  The callback then returns four blank
    figures of height 300 and the text "Error generating charts — " followed
    by the exception's message, after printing the error line and the
    traceback; it returns normally in every case, leaves the store as it
    was, and a later poll is served from that same store.  A failure of the
    query (no deque to read) and a failure of any step of the analytics on
    the queried window both end in this placeholder. *)
Theorem update_catches_failures (now : Z) (w : World) :
  let blank := blank_figure 300 in
  let placeholder (e : exn) : Output Figure :=
    (blank, blank, blank, blank,
     "Error generating charts — " +:+ exn_str e) in
  (∀ e w1, upd_body' heatmap_figure now w = (Raise e, w1) →
     upd' heatmap_figure now w
     = (Ok (placeholder e),
        mkWorld (heap w1)
          (console w1 ++ [" Callback error in update(): " +:+ exn_str e;
                          format_exc e]))) ∧
  (∀ out w1, upd_body' heatmap_figure now w = (Ok out, w1) →
     upd' heatmap_figure now w = (Ok out, w1)) ∧
  (∃ out, fst (upd' heatmap_figure now w) = Ok out) ∧
  buffer_of (snd (upd' heatmap_figure now w)) = buffer_of w ∧
  (heap w !! buffer_loc = None →
   upd' heatmap_figure now w
   = (Ok (blank, blank, blank, blank,
          "Error generating charts — name 'buffer' is not defined"),
      mkWorld (heap w)
        (console w ++ [" Callback error in update(): "
                         +:+ "name 'buffer' is not defined";
                       format_exc (NameError "buffer")]))) ∧
  (∀ n items e,
     heap w !! buffer_loc = Some (ODeque n items) →
     render' heatmap_figure (window_frame now 5 items) = Raise e →
     fst (upd' heatmap_figure now w) = Ok (placeholder e) ∧
     console (snd (upd' heatmap_figure now w))
     = console w ++ [" Callback error in update(): " +:+ exn_str e;
                     format_exc e] ∧
     heap (snd (upd' heatmap_figure now w)) !! buffer_loc
     = Some (ODeque n items)) ∧
  (∀ n items now',
     heap w !! buffer_loc = Some (ODeque n items) →
     fst (upd' heatmap_figure now' (snd (upd' heatmap_figure now w)))
     = match render' heatmap_figure (window_frame now' 5 items) with
       | Ok out => Ok out
       | Raise e => Ok (placeholder e)
       end).
Proof.
  intros blank placeholder.
  assert (Hraise : ∀ e w1, upd_body' heatmap_figure now w = (Raise e, w1) →
     upd' heatmap_figure now w
     = (Ok (placeholder e),
        mkWorld (heap w1)
          (console w1 ++ [" Callback error in update(): " +:+ exn_str e;
                          format_exc e]))).
  { intros e w1 Hb. unfold update.
    by rewrite (guard_raise blank_figure format_exc _ _ _ _ Hb). }
  assert (Hheap : ∀ n items, heap w !! buffer_loc = Some (ODeque n items) →
     heap (snd (upd' heatmap_figure now w)) !! buffer_loc
     = Some (ODeque n items)).
  { intros n items Hw. rewrite update_heap. by apply df_buf_preserves. }
  split; [exact Hraise|]. split.
  { intros out w1 Hb. unfold update. by apply guard_ok. }
  split.
  { destruct (upd_body' heatmap_figure now w) as [[out|e] w1] eqn:Hb.
    - exists out. unfold update.
      by rewrite (guard_ok blank_figure format_exc _ _ _ _ Hb).
    - exists (placeholder e). by rewrite (Hraise _ _ eq_refl). }
  split.
  { unfold buffer_of. rewrite update_heap. apply (df_buf_buffer now 5 w). }
  split.
  { intros Hnone.
    assert (Hb : upd_body' heatmap_figure now w
                 = (Raise (NameError "buffer"), w)).
    { unfold update_body, df_buf, snapshot, mbind, M_bind. by rewrite Hnone. }
    by rewrite (Hraise _ _ Hb). }
  split.
  { intros n items e Hw Hr.
    pose proof (update_body_render heatmap_figure now w n items Hw) as Hb.
    rewrite Hr in Hb. rewrite (Hraise _ _ Hb). cbn [fst snd console heap].
    destruct (df_buf_result _ _ _ now 5%Z Hw) as (r & _ & _ & _ & _ & Hd & Hc).
    by rewrite Hc, Hd. }
  intros n items now' Hw.
  by rewrite (update_result _ _ _ _ _ (Hheap _ _ Hw)).
Qed.

End DashboardMore.

Lemma update_waits_without_recent_data_witness :
  fst (update unit (λ _, tt) (λ _, tt) null_indicator null_scatter
         null_heatmap (λ x _, x) (λ _, 0%float) (λ _, 0%float) (λ _, 0%float) null_stats (λ _, "")
         400000000 (appends [(60000000%Z, 25%float, 55%float)] init_world))
  = Ok (tt, tt, tt, tt, "Waiting for valid data...").
Proof.
  apply (update_waits_without_recent_data (λ _, tt) (λ _, tt) null_indicator
           null_scatter null_heatmap (λ x _, x) (λ _, 0%float) (λ _, 0%float) (λ _, 0%float) null_stats
           (λ _, "") 400000000
           (appends [(60000000%Z, 25%float, 55%float)] init_world)
           MAX_POINTS [mkSample 60000000 25 55]).
  - reflexivity.
  - repeat constructor. vm_compute. discriminate.
Defined.

Lemma update_depends_on_last_five_minutes_witness :
  fst (update unit (λ _, tt) (λ _, tt) null_indicator null_scatter
         null_heatmap (λ x _, x) (λ _, 0%float) (λ _, 0%float) (λ _, 0%float) null_stats (λ _, "")
         400000000
         (appends [(60000000%Z, 25%float, 55%float);
                   (390000000%Z, 26%float, 50%float)] init_world))
  = fst (update unit (λ _, tt) (λ _, tt) null_indicator null_scatter
           null_heatmap (λ x _, x) (λ _, 0%float) (λ _, 0%float) (λ _, 0%float) null_stats (λ _, "")
           400000000
           (appends [(390000000%Z, 26%float, 50%float)] init_world)).
Proof.
  apply (update_depends_on_last_five_minutes (λ _, tt) (λ _, tt)
           null_indicator null_scatter null_heatmap (λ x _, x)
           (λ _, 0%float) (λ _, 0%float) (λ _, 0%float) null_stats (λ _, "") 400000000 _ _
           MAX_POINTS MAX_POINTS
           [mkSample 60000000 25 55; mkSample 390000000 26 50]
           [mkSample 390000000 26 50]); reflexivity.
Defined.

Lemma update_output_ignores_heatmap_witness :
  fst (update unit (λ _, tt) (λ _, tt) null_indicator null_scatter
         null_heatmap (λ x _, x) (λ _, 0%float) (λ _, 0%float) (λ _, 0%float) null_stats (λ _, "")
         400000000
         (appends [(390000000%Z, 26%float, 50%float)] init_world))
  = fst (update unit (λ _, tt) (λ _, tt) null_indicator null_scatter
           (λ _, Ok tt) (λ x _, x) (λ _, 0%float) (λ _, 0%float) (λ _, 0%float) null_stats (λ _, "")
           400000000
           (appends [(390000000%Z, 26%float, 50%float)] init_world)).
Proof.
  apply (update_output_ignores_heatmap (λ _, tt) (λ _, tt) null_indicator
           null_scatter (λ x _, x) (λ _, 0%float) (λ _, 0%float) (λ _, 0%float) null_stats (λ _, "")
           null_heatmap (λ _, Ok tt) 400000000 _
           MAX_POINTS [mkSample 390000000 26 50]).
  - reflexivity.
  - intros c. exact I.
Defined.

Lemma line_fig_no_data_witness :
  line_fig unit (λ _, tt) null_scatter (λ _, 0%float) (λ _, 0%float)
    DataFrame_empty Temperature
    "Temperature Over Time" "#007AFF" 0.02 "Temperature (°C)"
  = Ok tt.
Proof.
  apply (line_fig_no_data (λ _, tt) null_scatter (λ _, 0%float)
           (λ _, 0%float) DataFrame_empty Temperature
           "Temperature Over Time" "#007AFF" 0.02 "Temperature (°C)").
  left. reflexivity.
Defined.

Lemma line_fig_positive_step_witness :
  line_fig unit (λ _, tt)
    (λ xs ys _ _ _ dtick range,
       if PrimFloat.eqb dtick 0.02 then Ok tt else Raise (ValueError "dtick"))
    (λ _, 0%float) (λ _, 0%float)
    (mkFrame sample_columns [mkSample 1 25 55]) Temperature
    "Temperature Over Time" "#007AFF" 0.02 "Temperature (°C)"
  = Ok tt.
Proof.
  apply (line_fig_positive_step (λ _, tt)
           (λ xs ys _ _ _ dtick range,
              if PrimFloat.eqb dtick 0.02 then Ok tt
              else Raise (ValueError "dtick"))
           (λ _, 0%float) (λ _, 0%float)
           (mkFrame sample_columns [mkSample 1 25 55]) Temperature
           "Temperature Over Time" "#007AFF" 0.02 "Temperature (°C)").
  - discriminate.
  - unfold sample_columns. simpl. set_solver.
  - apply ts_in_sample_columns.
  - vm_compute. discriminate.
  - reflexivity.
Defined.


Lemma update_catches_failures_witness :
  fst (update Z (λ height, height) (λ _, 0%Z)
         (λ _ _ _ _ _, Raise (ValueError "Invalid value")) (λ _ _ _ _ _ _ _, Ok 1%Z)
         (λ _, Ok 2%Z) (λ x _, x) (λ _, 0%float) (λ _, 0%float)
         (λ _, 0%float) null_stats (λ _, "") 400000000
         (appends [(390000000%Z, 26%float, 50%float)] init_world))
  = Ok (300%Z, 300%Z, 300%Z, 300%Z,
        "Error generating charts — Invalid value").
Proof.
  exact (proj1 (proj1 (proj2 (proj2 (proj2 (proj2 (proj2
    (update_catches_failures (λ height, height) (λ _, 0%Z)
       (λ _ _ _ _ _, Raise (ValueError "Invalid value"))
       (λ _ _ _ _ _ _ _, Ok 1%Z) (λ _, Ok 2%Z) (λ x _, x)
       (λ _, 0%float) (λ _, 0%float) (λ _, 0%float) null_stats (λ _, "")
       400000000
       (appends [(390000000%Z, 26%float, 50%float)] init_world)))))))
    MAX_POINTS [mkSample 390000000 26 50] (ValueError "Invalid value")
    eq_refl eq_refl)).
Defined.
